(** * Season-results ingestion and filtering of the F1 dashboard

    A shallow embedding of [F1Dashboard.get_season_results] and
    [F1Dashboard.apply_filters] (src/new.py), with the properties the
    specification states about them.

    Conventions.
    - A decoded JSON document is a [value]; Python's [None] is [VNone], which
      is also what [fetch_data] returns after a request error.
    - A [string] is a sequence of code points below 256, one per character.
    - A Python float is a [pyfloat]: a finite value is kept as the exact
      rational it denotes (rounding to binary64 is not modelled), infinities
      and NaN are kept apart.
    - Code that can raise returns an [exc]. *)

From Stdlib Require Import ZArith QArith Qabs List String Ascii Bool Lia.
From Stdlib Require Import Sorted Permutation.
From Stdlib Require Import DecimalString DecimalZ.
Import ListNotations.

Local Open Scope string_scope.
Local Open Scope list_scope.
Local Open Scope Z_scope.

#[local] Set Warnings "-register-all".

(** ** Exceptions *)

Inductive exn : Type :=
| KeyError (key : string)
| TypeError
| ValueError
| AttributeError
| OverflowError.

Inductive exc (A : Type) : Type :=
| OK (a : A)
| Raise (e : exn).

Arguments OK {A} a.
Arguments Raise {A} e.

Definition bind {A B : Type} (c : exc A) (k : A -> exc B) : exc B :=
  match c with
  | OK a => k a
  | Raise e => Raise e
  end.

Notation "x <- c ;; k" := (bind c (fun x => k))
  (at level 61, c at next level, right associativity).

(** A [for] loop that builds a list: the first exception ends it. *)
Fixpoint mapM {A B : Type} (f : A -> exc B) (l : list A) : exc (list B) :=
  match l with
  | [] => OK []
  | a :: l' => b <- f a ;; bs <- mapM f l' ;; OK (b :: bs)
  end.

(** ** Python values *)

Inductive pyfloat : Type :=
| Finite (q : Q)
| Inf (negative : bool)
| NaN.

Inductive value : Type :=
| VNone
| VBool (b : bool)
| VInt (z : Z)
| VFloat (x : pyfloat)
| VStr (s : string)
| VList (l : list value)
| VDict (items : list (string * value)).

Definition Qzero (q : Q) : bool := (Qnum q =? 0).

(** Truth value of an object, as [not data] and [not races] test it. *)
Definition truthy (v : value) : bool :=
  match v with
  | VNone => false
  | VBool b => b
  | VInt z => negb (z =? 0)
  | VFloat (Finite q) => negb (Qzero q)
  | VFloat _ => true
  | VStr s => negb (s =? "")%string
  | VList l => match l with [] => false | _ => true end
  | VDict m => match m with [] => false | _ => true end
  end.

Fixpoint lookup (k : string) (m : list (string * value)) : option value :=
  match m with
  | [] => None
  | (k', v) :: m' => if (k =? k')%string then Some v else lookup k m'
  end.

Fixpoint substring_of (p s : string) : bool :=
  prefix p s ||
  match s with
  | EmptyString => false
  | String _ s' => substring_of p s'
  end.

Definition is_str (k : string) (v : value) : bool :=
  match v with
  | VStr s => (k =? s)%string
  | _ => false
  end.

(** [k in v] for a text [k]. *)
Definition contains (k : string) (v : value) : exc bool :=
  match v with
  | VDict m => OK (match lookup k m with Some _ => true | None => false end)
  | VList l => OK (existsb (is_str k) l)
  | VStr s => OK (substring_of k s)
  | _ => Raise TypeError
  end.

(** [v[k]] for a text [k]. *)
Definition getitem (v : value) (k : string) : exc value :=
  match v with
  | VDict m => match lookup k m with Some x => OK x | None => Raise (KeyError k) end
  | _ => Raise TypeError
  end.

(** [v.get(k, d)]. *)
Definition get_default (v : value) (k : string) (d : value) : exc value :=
  match v with
  | VDict m => OK (match lookup k m with Some x => x | None => d end)
  | _ => Raise AttributeError
  end.

(** The items a [for] loop over [v] visits. *)
Definition iterate (v : value) : exc (list value) :=
  match v with
  | VList l => OK l
  | VDict m => OK (map (fun kv => VStr (fst kv)) m)
  | VStr s => OK (map (fun c => VStr (String c EmptyString)) (list_ascii_of_string s))
  | _ => Raise TypeError
  end.

(** ** Text to numbers *)

Definition code (c : ascii) : Z := Z.of_N (N_of_ascii c).

Definition is_decimal (c : ascii) : bool := (48 <=? code c) && (code c <=? 57).

(** [str.isdigit] also accepts the superscript digits U+00B2, U+00B3 and
    U+00B9, which are digits but not decimal characters. *)
Definition is_digit (c : ascii) : bool :=
  is_decimal c || (code c =? 178) || (code c =? 179) || (code c =? 185).

(** White space that [int] and [float] strip from both ends. *)
Definition is_space (c : ascii) : bool :=
  ((9 <=? code c) && (code c <=? 13)) || (code c =? 32)
  || (code c =? 133) || (code c =? 160).

Definition isdigit (s : string) : bool :=
  match list_ascii_of_string s with
  | [] => false
  | cs => forallb is_digit cs
  end.

Fixpoint dropwhile {A : Type} (p : A -> bool) (l : list A) : list A :=
  match l with
  | [] => []
  | a :: l' => if p a then dropwhile p l' else l
  end.

Fixpoint span {A : Type} (p : A -> bool) (l : list A) : list A * list A :=
  match l with
  | [] => ([], [])
  | a :: l' => if p a then let (xs, ys) := span p l' in (a :: xs, ys) else ([], l)
  end.

Definition strip (cs : list ascii) : list ascii :=
  rev (dropwhile is_space (rev (dropwhile is_space cs))).

Definition digit_value (c : ascii) : Z := code c - 48.

Definition is_underscore (c : ascii) : bool := (code c =? 95).

(** Decimal digits, single underscores allowed between two digits. *)
Fixpoint int_digits (cs : list ascii) (acc : Z) (after_digit : bool) : option Z :=
  match cs with
  | [] => if after_digit then Some acc else None
  | c :: cs' =>
      if is_decimal c then int_digits cs' (10 * acc + digit_value c) true
      else if is_underscore c && after_digit then int_digits cs' acc false
      else None
  end.

Definition signed (cs : list ascii) : bool * list ascii :=
  match cs with
  | c :: cs' =>
      if code c =? 43 then (false, cs')
      else if code c =? 45 then (true, cs')
      else (false, cs)
  | [] => (false, [])
  end.

(** [int(s)] for a text [s]; [None] stands for [ValueError]. *)
Definition int_of_string (s : string) : option Z :=
  let (neg, body) := signed (strip (list_ascii_of_string s)) in
  match int_digits body 0 false with
  | Some n => Some (if neg then - n else n)
  | None => None
  end.

Definition digits_value (cs : list ascii) : Z :=
  fold_left (fun acc c => 10 * acc + digit_value c) cs 0.

(** Every underscore stands between two decimal digits. *)
Fixpoint underscores_ok (prev : option ascii) (cs : list ascii) : bool :=
  match cs with
  | [] => match prev with Some p => negb (is_underscore p) | None => true end
  | c :: cs' =>
      (if is_underscore c
       then match prev with Some p => is_decimal p | None => false end
       else match prev with Some p => negb (is_underscore p) || is_decimal c | None => true end)
      && underscores_ok (Some c) cs'
  end.

Definition lower (c : ascii) : ascii :=
  if (65 <=? code c) && (code c <=? 90)
  then ascii_of_N (Z.to_N (code c + 32)) else c.

Definition pow10 (e : Z) : Q :=
  if 0 <=? e then inject_Z (10 ^ e) else 1 # Z.to_pos (10 ^ (- e)).

(** The least magnitude that binary64 rounds to an infinity. *)
Definition float_limit : Z := 2 ^ 1024 - 2 ^ 970.

Definition in_float_range (q : Q) : bool :=
  negb (Qle_bool (inject_Z float_limit) (Qabs q)).

Definition to_float (q : Q) : pyfloat :=
  if in_float_range q then Finite (Qred q) else Inf (Qnum q <? 0).

(** [digits [. digits] [(e|E) [sign] digits]], with a digit in the mantissa. *)
Definition decimal_literal (cs : list ascii) : option Q :=
  let (ip, r1) := span is_decimal cs in
  let (fp, r2) :=
    match r1 with
    | c :: r => if code c =? 46 then span is_decimal r else ([], r1)
    | [] => ([], r1)
    end in
  match ip ++ fp with
  | [] => None
  | ds =>
      let m := digits_value ds in
      let k := Z.of_nat (List.length fp) in
      match r2 with
      | [] => Some (inject_Z m * pow10 (- k))%Q
      | c :: r3 =>
          if code (lower c) =? 101 then
            let (eneg, r4) := signed r3 in
            match span is_decimal r4 with
            | (d :: ds', []) =>
                let e := digits_value (d :: ds') in
                Some (inject_Z m * pow10 ((if eneg then - e else e) - k))%Q
            | _ => None
            end
          else None
      end
  end.

(** [float(s)] for a text [s]; [None] stands for [ValueError]. *)
Definition float_of_string (s : string) : option pyfloat :=
  let cs := strip (list_ascii_of_string s) in
  if underscores_ok None cs then
    let (neg, body) := signed (filter (fun c => negb (is_underscore c)) cs) in
    let name := string_of_list_ascii (map lower body) in
    if ((name =? "inf") || (name =? "infinity"))%string then Some (Inf neg)
    else if (name =? "nan")%string then Some NaN
    else
      match decimal_literal body with
      | Some q => Some (to_float (if neg then - q else q)%Q)
      | None => None
      end
  else None.

(** [int(v)]. *)
Definition py_int (v : value) : exc Z :=
  match v with
  | VInt z => OK z
  | VBool b => OK (if b then 1 else 0)
  | VFloat (Finite q) => OK (Z.quot (Qnum q) (Zpos (Qden q)))
  | VFloat (Inf _) => Raise OverflowError
  | VFloat NaN => Raise ValueError
  | VStr s => match int_of_string s with Some z => OK z | None => Raise ValueError end
  | _ => Raise TypeError
  end.

(** [float(v)]. *)
Definition py_float (v : value) : exc pyfloat :=
  match v with
  | VFloat x => OK x
  | VInt z => if in_float_range (inject_Z z) then OK (Finite (inject_Z z)) else Raise OverflowError
  | VBool b => OK (Finite (if b then 1 else 0))
  | VStr s => match float_of_string s with Some x => OK x | None => Raise ValueError end
  | _ => Raise TypeError
  end.

(** [v.isdigit()]. *)
Definition str_isdigit (v : value) : exc bool :=
  match v with
  | VStr s => OK (isdigit s)
  | _ => Raise AttributeError
  end.

(** ** Rows

    One driver's result in one race.  [V] is the type of the cells that the
    builder copies from the response as they are ([race], [constructor],
    [status]), [N] the type of the driver's name and [D] the type of the
    date cell. *)

Record Row (V N D : Type) : Type := mkRow {
  round : Z;
  race : V;
  date : D;
  driver : N;
  constructor : V;
  position : option Z;
  points : pyfloat;
  status : V
}.

Arguments mkRow {V N D}.
Arguments round {V N D}.
Arguments race {V N D}.
Arguments date {V N D}.
Arguments driver {V N D}.
Arguments constructor {V N D}.
Arguments position {V N D}.
Arguments points {V N D}.
Arguments status {V N D}.

Definition set_date {V N D E : Type} (r : Row V N D) (d : E) : Row V N E :=
  mkRow (round r) (race r) d (driver r) (constructor r)
        (position r) (points r) (status r).

(** An f-string, kept as its parts: literal text and interpolated values. *)
Inductive fpart : Type :=
| Lit (s : string)
| Fmt (v : value).

Definition raw_row : Type := Row value (list fpart) value.

(** ** The season results builder: the pagination loop *)

Definition limit : Z := 100.

(** Lines 78-79: [position = result.get('position', 'DNF')], then
    [int(position) if position.isdigit() else None]. *)
Definition parse_position (result : value) : exc (option Z) :=
  position <- get_default result "position" (VStr "DNF") ;;
  d <- str_isdigit position ;;
  if d then z <- py_int position ;; OK (Some z) else OK None.

(** Lines 81-84: [float(result.get('points', 0))] under
    [except (ValueError, TypeError)]. *)
Definition parse_points (result : value) : exc pyfloat :=
  match (raw <- get_default result "points" (VInt 0) ;; py_float raw) with
  | OK x => OK x
  | Raise ValueError => OK (Finite 0)
  | Raise TypeError => OK (Finite 0)
  | Raise e => Raise e
  end.

(** Lines 78-95: the row appended for one result of a race. *)
Definition result_row (round_num : Z) (race_name race_date result : value)
  : exc raw_row :=
  position <- parse_position result ;;
  points <- parse_points result ;;
  d1 <- getitem result "Driver" ;;
  given <- getitem d1 "givenName" ;;
  d2 <- getitem result "Driver" ;;
  family <- getitem d2 "familyName" ;;
  c <- getitem result "Constructor" ;;
  cname <- getitem c "name" ;;
  st <- get_default result "status" (VStr "") ;;
  OK (mkRow round_num race_name race_date [Fmt given; Lit " "; Fmt family]
            cname position points st).

(** Lines 73-95: the rows of one race. *)
Definition race_rows (race : value) : exc (list raw_row) :=
  race_name <- getitem race "raceName" ;;
  r <- getitem race "round" ;;
  round_num <- py_int r ;;
  race_date <- getitem race "date" ;;
  results <- getitem race "Results" ;;
  items <- iterate results ;;
  mapM (result_row round_num race_name race_date) items.

(** Line 65: the test that ends the loop when a fetch brought nothing usable. *)
Definition fetch_failed (data : value) : exc bool :=
  if negb (truthy data) then OK true
  else
    has_mr <- contains "MRData" data ;;
    if negb has_mr then OK true
    else
      md <- getitem data "MRData" ;;
      has_rt <- contains "RaceTable" md ;;
      OK (negb has_rt).

(** Line 68. *)
Definition page_races (data : value) : exc value :=
  md <- getitem data "MRData" ;;
  rt <- getitem md "RaceTable" ;;
  getitem rt "Races".

(** Lines 72-95. *)
Definition flatten (races : value) : exc (list raw_row) :=
  items <- iterate races ;;
  rows <- mapM race_rows items ;;
  OK (List.concat rows).

(** Line 98. *)
Definition page_total (data : value) : exc Z :=
  md <- getitem data "MRData" ;;
  t <- getitem md "total" ;;
  py_int t.

(** One turn of the loop, lines 65-100, on the response [data] to the request
    at [offset]: the rows it appends and whether the loop goes on. *)
Definition page_body (data : value) (offset : Z) : exc (list raw_row * bool) :=
  stop <- fetch_failed data ;;
  if stop then OK ([], false)
  else
    races <- page_races data ;;
    if negb (truthy races) then OK ([], false)
    else
      rows <- flatten races ;;
      total <- page_total data ;;
      OK (rows, negb (offset + limit >=? total)).

(** A request of [fetch_data]: endpoint, offset, limit. *)
Definition request : Type := string * Z * Z.

Inductive outcome (A : Type) : Type :=
| Returned (a : A)
| Raised (e : exn)
| Starved.

Arguments Returned {A} a.
Arguments Raised {A} e.
Arguments Starved {A}.

(** Lines 63-100.  [script] holds the responses of [fetch_data] in the order
    of the calls; [Starved] says that the loop asked for one more response
    than the script holds.  The second component lists the requests made. *)
Fixpoint fetch_loop (year : string) (script : list value) (offset : Z)
    (all_results : list raw_row) (log : list request)
  : outcome (list raw_row) * list request :=
  match script with
  | [] => (Starved, log)
  | data :: script' =>
      let log' := log ++ [((year ++ "/results")%string, offset, limit)] in
      match page_body data offset with
      | Raise e => (Raised e, log')
      | OK (rows, false) => (Returned (all_results ++ rows), log')
      | OK (rows, true) =>
          fetch_loop year script' (offset + limit) (all_results ++ rows) log'
      end
  end.

(** ** The season results builder: the returned frame *)

(** Position cells in sorting order, absent ones last. *)
Definition position_le (p1 p2 : option Z) : bool :=
  match p1, p2 with
  | Some a, Some b => a <=? b
  | _, None => true
  | None, Some _ => false
  end.

(** The order of [sort_values(['round', 'position'])]. *)
Definition key_le {V N D : Type} (r1 r2 : Row V N D) : bool :=
  (round r1 <? round r2)
  || ((round r1 =? round r2) && position_le (position r1) (position r2)).

Fixpoint insert_row {V N D : Type} (r : Row V N D) (l : list (Row V N D))
  : list (Row V N D) :=
  match l with
  | [] => [r]
  | r' :: l' => if key_le r r' then r :: l else r' :: insert_row r l'
  end.

(** [df.sort_values(['round', 'position'])]: ascending, stable, absent
    positions last. *)
Fixpoint sort_values {V N D : Type} (df : list (Row V N D)) : list (Row V N D) :=
  match df with
  | [] => []
  | r :: df' => insert_row r (sort_values df')
  end.

(** [df['date'] = dates]. *)
Definition with_dates {V N D E : Type} (df : list (Row V N D)) (dates : list E)
  : list (Row V N E) :=
  map (fun rd => set_date (fst rd) (snd rd)) (combine df dates).

Section Season.

(** [pd.to_datetime] on a column, and the type of its cells. *)
Variable timestamp : Type.
Variable to_datetime : list value -> exc (list timestamp).

Definition frame : Type := list (Row value (list fpart) timestamp).

(** Lines 102-108. *)
Definition finish (all_results : list raw_row) : exc frame :=
  match all_results with
  | [] => OK []
  | _ =>
      dates <- to_datetime (map date all_results) ;;
      OK (sort_values (with_dates all_results dates))
  end.

Record run : Type := mkRun {
  result : outcome frame;
  requests : list request
}.

(** [get_season_results(year)], run against a script of responses. *)
Definition get_season_results (year : string) (script : list value) : run :=
  let (o, log) := fetch_loop year script 0 [] [] in
  match o with
  | Returned all_results =>
      match finish all_results with
      | OK df => mkRun (Returned df) log
      | Raise e => mkRun (Raised e) log
      end
  | Raised e => mkRun (Raised e) log
  | Starved => mkRun Starved log
  end.

End Season.

Arguments result {timestamp} r.
Arguments requests {timestamp} r.

(** ** The filter engine *)

(** [a <= b] on floats. *)
Definition fle (a b : pyfloat) : bool :=
  match a, b with
  | NaN, _ | _, NaN => false
  | Inf true, _ => true
  | _, Inf false => true
  | Finite p, Finite q => Qle_bool p q
  | _, _ => false
  end.

(** [Series.between(left, right)], both ends included. *)
Definition between (x left right : pyfloat) : bool := fle left x && fle x right.

(** A position cell as the frame holds it. *)
Definition position_cell (p : option Z) : pyfloat :=
  match p with
  | Some z => Finite (inject_Z z)
  | None => NaN
  end.

Definition notna (p : option Z) : bool :=
  match p with
  | Some _ => true
  | None => false
  end.

(** [Series.isin(values)] on text cells. *)
Definition isin (x : string) (values : list string) : bool :=
  existsb (String.eqb x) values.

(** The [filters] dictionary: each key is present or not. *)
Record Filters : Type := mkFilters {
  points_range : option (pyfloat * pyfloat);
  selected_races : option (list string);
  position_range : option (pyfloat * pyfloat);
  selected_constructors : option (list string)
}.

Section Filter.

Context {N D : Type}.

(** A frame whose [race], [constructor] and [status] cells are text. *)
Definition table : Type := list (Row string N D).

(** Lines 435-460. *)
Definition apply_filters (df : table) (filters : Filters) : table :=
  let filtered_df := df in
  let filtered_df :=
    match points_range filters with
    | Some (min_points, max_points) =>
        filter (fun r => between (points r) min_points max_points) filtered_df
    | None => filtered_df
    end in
  let filtered_df :=
    match selected_races filters with
    | Some (x :: l) => filter (fun r => isin (race r) (x :: l)) filtered_df
    | _ => filtered_df
    end in
  let filtered_df :=
    match position_range filters with
    | Some (min_pos, max_pos) =>
        filter (fun r => notna (position r)
                         && between (position_cell (position r)) min_pos max_pos)
               filtered_df
    | None => filtered_df
    end in
  let filtered_df :=
    match selected_constructors filters with
    | Some (x :: l) => filter (fun r => isin (constructor r) (x :: l)) filtered_df
    | _ => filtered_df
    end in
  filtered_df.

End Filter.

(** ** Responses of the documented shape

    [{ MRData: { total, RaceTable: { Races: [...] } } }], every race with its
    name, round, date and results, every result with its driver and
    constructor. *)

Definition has_key (k : string) (m : list (string * value)) : bool :=
  match lookup k m with
  | Some _ => true
  | None => false
  end.

Definition is_ok {A : Type} (c : exc A) : bool :=
  match c with
  | OK _ => true
  | Raise _ => false
  end.

(** The position is absent or a text that, when all digits, is an integer. *)
Definition wf_position (m : list (string * value)) : bool :=
  match lookup "position" m with
  | None => true
  | Some (VStr s) => negb (isdigit s) || is_ok (py_int (VStr s))
  | Some _ => false
  end.

Definition wf_points (m : list (string * value)) : bool :=
  match lookup "points" m with
  | Some (VInt z) => in_float_range (inject_Z z)
  | _ => true
  end.

Definition wf_driver (m : list (string * value)) : bool :=
  match lookup "Driver" m with
  | Some (VDict d) => has_key "givenName" d && has_key "familyName" d
  | _ => false
  end.

Definition wf_constructor (m : list (string * value)) : bool :=
  match lookup "Constructor" m with
  | Some (VDict c) => has_key "name" c
  | _ => false
  end.

Definition wf_result (v : value) : bool :=
  match v with
  | VDict m => wf_position m && wf_points m && wf_driver m && wf_constructor m
  | _ => false
  end.

Definition wf_race (v : value) : bool :=
  match v with
  | VDict m =>
      has_key "raceName" m
      && match lookup "round" m with Some r => is_ok (py_int r) | None => false end
      && has_key "date" m
      && match lookup "Results" m with
         | Some (VList rs) => forallb wf_result rs
         | _ => false
         end
  | _ => false
  end.

(** The races a response lists. *)
Definition races_of (data : value) : option (list value) :=
  match data with
  | VDict m =>
      match lookup "MRData" m with
      | Some (VDict md) =>
          match lookup "RaceTable" md with
          | Some (VDict rt) =>
              match lookup "Races" rt with
              | Some (VList rs) => Some rs
              | _ => None
              end
          | _ => None
          end
      | _ => None
      end
  | _ => None
  end.

(** The total a response declares. *)
Definition declared_total (data : value) : option Z :=
  match data with
  | VDict m =>
      match lookup "MRData" m with
      | Some (VDict md) =>
          match lookup "total" md with
          | Some t => match py_int t with OK z => Some z | Raise _ => None end
          | None => None
          end
      | _ => None
      end
  | _ => None
  end.

(** A response of the documented shape that declares the total [T]. *)
Definition wf_page (T : Z) (data : value) : bool :=
  match races_of data, declared_total data with
  | Some rs, Some t => forallb wf_race rs && (t =? T)
  | _, _ => false
  end.

Definition nonempty_races (data : value) : bool :=
  match races_of data with
  | Some (_ :: _) => true
  | _ => false
  end.

(** A response to the request at [offset] after which the next page is
    requested: it lists a race and declares a total beyond this page. *)
Definition continues (offset : Z) (data : value) : bool :=
  match declared_total data with
  | Some t => wf_page t data && nonempty_races data && (offset + limit <? t)
  | None => false
  end.

Fixpoint all_continue (offset : Z) (pages : list value) : bool :=
  match pages with
  | [] => true
  | data :: pages' => continues offset data && all_continue (offset + limit) pages'
  end.

(** The rows lines 68-95 build from a response. *)
Definition page_rows (data : value) : list raw_row :=
  match (races <- page_races data ;; flatten races) with
  | OK rows => rows
  | Raise _ => []
  end.

Definition ceil_div (a b : Z) : Z := (a + b - 1) / b.

(** The requests of [n] turns of the loop, the first one at [offset]. *)
Fixpoint requests_from (year : string) (offset : Z) (n : nat) : list request :=
  match n with
  | O => []
  | S n' => ((year ++ "/results")%string, offset, limit)
            :: requests_from year (offset + limit) n'
  end.

Definition first_requests (year : string) (n : nat) : list request :=
  requests_from year 0 n.

(** ** The order of the returned frame, in the words of the specification *)

Definition row_before {V N D : Type} (r1 r2 : Row V N D) : Prop :=
  round r1 < round r2
  \/ (round r1 = round r2
      /\ match position r1, position r2 with
         | Some p1, Some p2 => p1 <= p2
         | _, None => True
         | None, Some _ => False
         end).

(** A position that is absent or not negative. *)
Definition position_nonneg {V N D : Type} (r : Row V N D) : Prop :=
  forall z, position r = Some z -> 0 <= z.

(** A row without its date cell. *)
Definition undated {V N D : Type} (r : Row V N D) : Row V N unit := set_date r tt.

(** ** The filter criteria, in the words of the specification *)

Definition Within (x lo hi : pyfloat) : Prop := fle lo x = true /\ fle x hi = true.

Definition retained {N D : Type} (filters : Filters) (r : Row string N D) : Prop :=
  (forall lo hi, points_range filters = Some (lo, hi) -> Within (points r) lo hi)
  /\ (forall l, selected_races filters = Some l -> l <> [] -> In (race r) l)
  /\ (forall lo hi, position_range filters = Some (lo, hi) ->
        exists p, position r = Some p /\ Within (Finite (inject_Z p)) lo hi)
  /\ (forall l, selected_constructors filters = Some l -> l <> [] ->
        In (constructor r) l).

(** The same test as one boolean function. *)
Definition keep {N D : Type} (filters : Filters) (r : Row string N D) : bool :=
  match points_range filters with
  | Some (lo, hi) => between (points r) lo hi
  | None => true
  end
  && match selected_races filters with
     | Some (x :: l) => isin (race r) (x :: l)
     | _ => true
     end
  && match position_range filters with
     | Some (lo, hi) => notna (position r) && between (position_cell (position r)) lo hi
     | None => true
     end
  && match selected_constructors filters with
     | Some (x :: l) => isin (constructor r) (x :: l)
     | _ => true
     end.

(** [narrow] lies within [wide]; an absent range is the whole line. *)
Definition narrows_range (narrow wide : option (pyfloat * pyfloat)) : bool :=
  match wide, narrow with
  | None, _ => true
  | Some (lo, hi), Some (lo', hi') => fle lo lo' && fle hi' hi
  | Some _, None => false
  end.

(** A selection that restricts: the key is present and the list not empty. *)
Definition restricts (sel : option (list string)) : bool :=
  match sel with
  | Some (_ :: _) => true
  | _ => false
  end.

Definition subset (l' l : list string) : bool := forallb (fun x => isin x l) l'.

(** [narrow] selects within [wide]; a selection that does not restrict is
    wider than any other. *)
Definition narrows_selection (narrow wide : option (list string)) : bool :=
  negb (restricts wide)
  || (restricts narrow
      && match narrow, wide with
         | Some l', Some l => subset l' l
         | _, _ => false
         end).

(** ** Concrete responses *)

Definition mk_result (pos pts given family team st : string) : value :=
  VDict [("position", VStr pos); ("points", VStr pts);
         ("Driver", VDict [("givenName", VStr given); ("familyName", VStr family)]);
         ("Constructor", VDict [("name", VStr team)]);
         ("status", VStr st)].

Definition mk_race (name rnd day : string) (results : list value) : value :=
  VDict [("raceName", VStr name); ("round", VStr rnd); ("date", VStr day);
         ("Results", VList results)].

Definition mk_page (total : string) (races : list value) : value :=
  VDict [("MRData", VDict [("total", VStr total);
                           ("RaceTable", VDict [("Races", VList races)])])].

Definition race_A : value :=
  mk_race "Bahrain Grand Prix" "1" "2023-03-05"
    [mk_result "DNF" "0" "Charles" "Leclerc" "Ferrari" "Engine";
     mk_result "2" "18" "Sergio" "Perez" "Red Bull" "Finished";
     mk_result "1" "25" "Max" "Verstappen" "Red Bull" "Finished"].

Definition race_B : value :=
  mk_race "Saudi Arabian Grand Prix" "2" "2023-03-19"
    [mk_result "1" "25" "Sergio" "Perez" "Red Bull" "Finished";
     mk_result "2" "19" "Max" "Verstappen" "Red Bull" "Finished"].

(** A response with a race table that lacks ['Races']. *)
Definition page_without_races : value :=
  VDict [("MRData", VDict [("total", VStr "0"); ("RaceTable", VDict [("season", VStr "2023")])])].

(** A result whose position is the superscript two, U+00B2. *)
Definition superscript_two : string := String (ascii_of_nat 178) EmptyString.

Definition result_superscript : value :=
  mk_result superscript_two "0" "Max" "Verstappen" "Red Bull" "Finished".

(** A result whose points are the integer 2^1024, not a text. *)
Definition result_huge_points : value :=
  VDict [("position", VStr "1"); ("points", VInt (2 ^ 1024));
         ("Driver", VDict [("givenName", VStr "Max"); ("familyName", VStr "Verstappen")]);
         ("Constructor", VDict [("name", VStr "Red Bull")]);
         ("status", VStr "Finished")].

(** A conversion of the API's [YYYY-MM-DD] dates to year, month and day; it
    stands for [pd.to_datetime] in the concrete runs below. *)
Definition iso_date (v : value) : exc (Z * Z * Z) :=
  match v with
  | VStr s =>
      match list_ascii_of_string s with
      | [y1; y2; y3; y4; s1; m1; m2; s2; d1; d2] =>
          if forallb is_decimal [y1; y2; y3; y4; m1; m2; d1; d2]
             && (code s1 =? 45) && (code s2 =? 45)
          then OK (digits_value [y1; y2; y3; y4], digits_value [m1; m2],
                   digits_value [d1; d2])
          else Raise ValueError
      | _ => Raise ValueError
      end
  | _ => Raise TypeError
  end.

Definition iso_dates (column : list value) : exc (list (Z * Z * Z)) :=
  mapM iso_date column.

(** Rows of a table, for the filter examples. *)
Definition mk_entry (rnd : Z) (name team : string) (pos : option Z) (pts : Z)
  : Row string string unit :=
  mkRow rnd name tt "driver" team pos (Finite (inject_Z pts)) "".

Definition two_races : list (Row string string unit) :=
  [mk_entry 1 "A" "X" (Some 1) 25; mk_entry 2 "B" "Y" None 0].

(** A season of two pages whose third request fails. *)
Definition two_pages : list value :=
  [mk_page "250" [race_A]; mk_page "250" [race_B]].

Definition two_pages_rows : list raw_row :=
  Eval vm_compute in flat_map page_rows two_pages.

Definition two_pages_dates : list (Z * Z * Z) :=
  Eval vm_compute in
    match iso_dates (map date two_pages_rows) with
    | OK ds => ds
    | Raise _ => []
    end.

Definition two_pages_frame : frame (Z * Z * Z) :=
  Eval vm_compute in sort_values (with_dates two_pages_rows two_pages_dates).

(** A season of 150 results in two pages. *)
Definition season_150 : list value :=
  [mk_page "150" [race_A]; mk_page "150" [race_B]].

(** A season without results. *)
Definition season_0 : list value := [mk_page "0" []].

(** ** The fetcher's URL *)

Definition base_url : string := "http://ergast.com/api/f1".

(** [str(z)] for an integer, as an f-string renders it. *)
Definition str_int (z : Z) : string := NilZero.string_of_int (Z.to_int z).

(** Line 40. *)
Definition url (endpoint : string) (offset limit : Z) : string :=
  (base_url ++ "/" ++ endpoint ++ ".json?limit=" ++ str_int limit
   ++ "&offset=" ++ str_int offset)%string.

Definition request_url (r : request) : string :=
  let '(endpoint, offset, lim) := r in url endpoint offset lim.

(** ** The list of seasons *)

Fixpoint insert_by {A : Type} (le : A -> A -> bool) (x : A) (l : list A) : list A :=
  match l with
  | [] => [x]
  | y :: l' => if le x y then x :: l else y :: insert_by le x l'
  end.

(** A stable sort in the order [le]. *)
Fixpoint sort_by {A : Type} (le : A -> A -> bool) (l : list A) : list A :=
  match l with
  | [] => []
  | x :: l' => insert_by le x (sort_by le l')
  end.

(** Text in ascending and in descending order of code points. *)
Definition sorted_text (l : list string) : list string := sort_by String.leb l.

Definition sorted_text_reverse (l : list string) : list string :=
  sort_by (fun a b => String.leb b a) l.

(** The texts of a list whose items are all text. *)
Fixpoint all_text (l : list value) : option (list string) :=
  match l with
  | [] => Some []
  | VStr s :: l' =>
      match all_text l' with
      | Some ss => Some (s :: ss)
      | None => None
      end
  | _ :: _ => None
  end.

Definition fallback_seasons : list value := [VStr "2023"].

Section Seasons.

(** [sorted(keys, reverse=True)] on keys that are not all text. *)
Variable sorted_other : list value -> exc (list value).

Definition sorted_reverse (keys : list value) : exc (list value) :=
  match all_text keys with
  | Some ss => OK (map VStr (sorted_text_reverse ss))
  | None => sorted_other keys
  end.

(** Lines 46-52, on the response [data] of [fetch_data('seasons', limit=100)]. *)
Definition seasons_body (data : value) : exc (list value) :=
  if truthy data then
    has_mr <- contains "MRData" data ;;
    if has_mr then
      md <- getitem data "MRData" ;;
      has_st <- contains "SeasonTable" md ;;
      if has_st then
        md' <- getitem data "MRData" ;;
        st <- getitem md' "SeasonTable" ;;
        seasons <- getitem st "Seasons" ;;
        items <- iterate seasons ;;
        keys <- mapM (fun season => getitem season "season") items ;;
        sorted_reverse keys
      else OK fallback_seasons
    else OK fallback_seasons
  else OK fallback_seasons.

(** Lines 43-55: every exception gives the fallback list. *)
Definition get_seasons_list (data : value) : list value :=
  match seasons_body data with
  | OK seasons => seasons
  | Raise _ => fallback_seasons
  end.

End Seasons.

(** A response that lists the seasons [ss]. *)
Definition mk_seasons (ss : list value) : value :=
  VDict [("MRData",
          VDict [("total", VStr "75");
                 ("SeasonTable",
                  VDict [("Seasons",
                          VList (map (fun s => VDict [("season", s)]) ss))])])].

(** ** Counts over a frame *)

(** [Series.unique()]: the distinct cells in the order of their first
    appearance. *)
Fixpoint unique_from (seen : list string) (l : list string) : list string :=
  match l with
  | [] => []
  | x :: l' =>
      if isin x seen then unique_from seen l'
      else x :: unique_from (x :: seen) l'
  end.

Definition unique (l : list string) : list string := unique_from [] l.

(** [position <= k] and [position == k] on a position cell: false on an
    absent one. *)
Definition cell_le (p : option Z) (k : Z) : bool :=
  match p with
  | Some z => z <=? k
  | None => false
  end.

Definition cell_eq (p : option Z) (k : Z) : bool :=
  match p with
  | Some z => z =? k
  | None => false
  end.

Section Counts.

Context {D : Type}.

(** A frame whose cells are text, the driver's name included. *)
Definition board : Type := list (Row string string D).

(** Lines 339, 347, 355 of [display_kpi_cards]. *)
Definition total_races (df : board) : nat := List.length (unique (map race df)).

Definition total_drivers (df : board) : nat := List.length (unique (map driver df)).

Definition total_constructors (df : board) : nat :=
  List.length (unique (map constructor df)).

(** Line 244 of [show_driver_comparison]: [df[df['driver'] == driver]]. *)
Definition driver_df (df : board) (name : string) : board :=
  filter (fun r => (driver r =? name)%string) df.

(** Lines 249-251: the counts of the [stats] of one driver. *)
Definition stat_podiums (df : board) (name : string) : nat :=
  List.length (filter (fun r => cell_le (position r) 3) (driver_df df name)).

Definition stat_races (df : board) (name : string) : nat :=
  List.length (driver_df df name).

Definition stat_wins (df : board) (name : string) : nat :=
  List.length (filter (fun r => cell_eq (position r) 1) (driver_df df name)).

(** Line 160 of [create_podium_finishes_chart]:
    [df[df['position'].between(1, 3)]['driver']]. *)
Definition podium_drivers (df : board) : list string :=
  map driver
    (filter (fun r => between (position_cell (position r))
                              (Finite (inject_Z 1)) (Finite (inject_Z 3))) df).

(** [value_counts()] read at one name. *)
Definition value_counts (column : list string) (name : string) : nat :=
  count_occ string_dec column name.

Definition podium_counts (df : board) (name : string) : nat :=
  value_counts (podium_drivers df) name.

(** ** The sidebar *)

(** What the widgets of the sidebar return. *)
Record Widgets : Type := mkWidgets {
  season_select : value;
  points_slider : Z * Z;
  races_multiselect : list string;
  position_slider : Z * Z;
  constructors_multiselect : list string
}.

Definition slider_range (v : Z * Z) : pyfloat * pyfloat :=
  (Finite (inject_Z (fst v)), Finite (inject_Z (snd v))).

(** Lines 372-432: the season chosen and the [filters] dictionary.
    [current_df] is the frame kept in the session state, if any. *)
Definition create_sidebar (current_df : option board) (w : Widgets)
  : value * Filters :=
  (season_select w,
   mkFilters
     (Some (slider_range (points_slider w)))
     (match current_df with
      | Some _ => Some (races_multiselect w)
      | None => None
      end)
     (Some (slider_range (position_slider w)))
     (match current_df with
      | Some _ => Some (constructors_multiselect w)
      | None => None
      end)).

(** The widgets as they stand before the user touches them: the [value] and
    [default] arguments of lines 395-429. *)
Definition untouched (season : value) (current_df : option board) : Widgets :=
  mkWidgets season (0, 400)
    (match current_df with
     | Some df => sorted_text (unique (map race df))
     | None => []
     end)
    (1, 20)
    (match current_df with
     | Some df => sorted_text (unique (map constructor df))
     | None => []
     end).

End Counts.

(** A driver with a win, a fourth place and a retirement, and a second driver. *)
Definition one_driver : list (Row string string unit) :=
  [mkRow 1 "A" tt "X" "T" (Some 1) (Finite 25) "";
   mkRow 2 "B" tt "X" "T" (Some 4) (Finite 12) "";
   mkRow 3 "C" tt "X" "T" None (Finite 0) "";
   mkRow 4 "D" tt "Y" "T" (Some 2) (Finite 18) ""].

(** * Properties *)

(** ** Lists *)

Lemma filter_twice {A : Type} (p q : A -> bool) (l : list A) :
  filter q (filter p l) = filter (fun x => p x && q x) l.
Proof.
  induction l as [|a l IH]; simpl; [reflexivity|].
  destruct (p a); simpl; [destruct (q a)|]; now rewrite IH.
Qed.

Lemma filter_same {A : Type} (p q : A -> bool) (l : list A) :
  (forall x, p x = q x) -> filter p l = filter q l.
Proof.
  intros E. induction l as [|a l IH]; simpl; [reflexivity|].
  now rewrite E, IH.
Qed.

Lemma filter_everything {A : Type} (l : list A) : filter (fun _ => true) l = l.
Proof. induction l as [|a l IH]; simpl; now rewrite ?IH. Qed.

Lemma filter_shorter {A : Type} (p q : A -> bool) (l : list A) :
  (forall x, p x = true -> q x = true) ->
  (List.length (filter p l) <= List.length (filter q l))%nat.
Proof.
  intros I. induction l as [|a l IH]; simpl; [lia|].
  destruct (p a) eqn:P.
  - rewrite (I a P). simpl. lia.
  - destruct (q a); simpl; lia.
Qed.

(** ** The filter engine *)

Section FilterFacts.

Context {N D : Type}.
Implicit Types (df : list (Row string N D)) (r : Row string N D).

Lemma apply_filters_after (p : Row string N D -> bool) df filters :
  apply_filters (filter p df) filters
  = filter (fun r => p r && keep filters r) df.
Proof.
  destruct filters as [pr sr por sc]. unfold apply_filters, keep. simpl.
  destruct pr as [[lo hi]|], sr as [[|x s]|], por as [[plo phi]|], sc as [[|y t]|];
    rewrite ?filter_twice; apply filter_same; intros r;
    destruct (p r); simpl; rewrite ?andb_true_r, ?andb_assoc; reflexivity.
Qed.

Lemma apply_filters_keep df filters :
  apply_filters df filters = filter (keep filters) df.
Proof.
  rewrite <- (filter_everything df) at 1.
  rewrite apply_filters_after. apply filter_same. intros r. reflexivity.
Qed.

Lemma isin_In (x : string) (l : list string) : isin x l = true <-> In x l.
Proof.
  unfold isin. rewrite existsb_exists. split.
  - intros [y [I E]]. apply String.eqb_eq in E. now subst.
  - intros I. exists x. split; [exact I | apply String.eqb_refl].
Qed.

Lemma range_test (p : option Z) (lo hi : pyfloat) :
  notna p && between (position_cell p) lo hi = true
  <-> exists z, p = Some z /\ Within (Finite (inject_Z z)) lo hi.
Proof.
  unfold Within, between. destruct p as [z|]; simpl.
  - rewrite andb_true_iff. split.
    + intros H. now exists z.
    + intros [z' [E H]]. now inversion E; subst.
  - split; [discriminate | intros [z [E _]]; discriminate].
Qed.

Lemma keep_retained filters r : keep filters r = true <-> retained filters r.
Proof.
  destruct filters as [pr sr por sc]. unfold keep, retained. simpl.
  rewrite !andb_true_iff.
  assert (P : match pr with
              | Some (lo, hi) => between (points r) lo hi
              | None => true
              end = true
              <-> forall lo hi, pr = Some (lo, hi) -> Within (points r) lo hi).
  { destruct pr as [[lo hi]|].
    - unfold Within, between. rewrite andb_true_iff. split.
      + intros H lo' hi' E. now inversion E; subst.
      + intros H. now apply H.
    - split; [discriminate | reflexivity]. }
  assert (S : forall (sel : option (list string)) (x : string),
             match sel with
             | Some (y :: s) => isin x (y :: s)
             | _ => true
             end = true
             <-> forall l, sel = Some l -> l <> [] -> In x l).
  { intros sel x. destruct sel as [[|y s]|].
    - split; [|reflexivity]. intros _ l E NE. inversion E; subst. now destruct NE.
    - rewrite isin_In. split.
      + intros H l E _. now inversion E; subst.
      + intros H. apply H; [reflexivity | discriminate].
    - split; [discriminate | reflexivity]. }
  assert (R : match por with
              | Some (lo, hi) =>
                  notna (position r) && between (position_cell (position r)) lo hi
              | None => true
              end = true
              <-> forall lo hi, por = Some (lo, hi) ->
                    exists p, position r = Some p /\ Within (Finite (inject_Z p)) lo hi).
  { destruct por as [[lo hi]|].
    - rewrite range_test. split.
      + intros H lo' hi' E. now inversion E; subst.
      + intros H. now apply H.
    - split; [discriminate | reflexivity]. }
  pose proof (S sr (race r)) as S1. pose proof (S sc (constructor r)) as S2.
  simpl in S1, S2. tauto.
Qed.

End FilterFacts.

(** C2.  [apply_filters] keeps exactly the rows that meet every criterion at
    once, in their order: points within the points range, race among the
    selected races when that list is not empty, position present and within
    the position range, constructor among the selected constructors when
    that list is not empty.  A row without a position is dropped whenever a
    position range is given, whatever the range. *)
Theorem apply_filters_retains {N D : Type} (df : list (Row string N D))
    (filters : Filters) :
  apply_filters df filters = filter (keep filters) df
  /\ (forall r : Row string N D, keep filters r = true <-> retained filters r)
  /\ (forall r, In r (apply_filters df filters) <-> In r df /\ retained filters r)
  /\ (forall (r : Row string N D) lo hi, position_range filters = Some (lo, hi) ->
        position r = None -> ~ In r (apply_filters df filters)).
Proof.
  split; [apply apply_filters_keep|].
  split; [intros r; apply keep_retained|].
  split.
  - intros r. rewrite apply_filters_keep, filter_In, keep_retained. tauto.
  - intros r lo hi E A I.
    rewrite apply_filters_keep, filter_In, keep_retained in I.
    destruct I as [_ [_ [_ [R _]]]].
    destruct (R lo hi E) as [p [P _]]. congruence.
Qed.

(** The end-to-end scenario of the specification: with the position range
    [1, 2] only the rows of positions 1 and 2 stay. *)
Lemma apply_filters_retains_witness :
  ~ In (mk_entry 2 "B" "Y" None 0)
       (apply_filters two_races
          (mkFilters None None (Some (Finite 1, Finite 2)) None)).
Proof.
  exact (proj2 (proj2 (proj2
    (apply_filters_retains two_races
       (mkFilters None None (Some (Finite 1, Finite 2)) None))))
    (mk_entry 2 "B" "Y" None 0) (Finite 1) (Finite 2) eq_refl eq_refl).
Defined.

(** C8.  Filtering twice with the same criteria is filtering once. *)
Theorem apply_filters_idempotent {N D : Type} (df : list (Row string N D))
    (filters : Filters) :
  apply_filters (apply_filters df filters) filters = apply_filters df filters.
Proof.
  rewrite !apply_filters_keep, filter_twice.
  apply filter_same. intros r. now destruct (keep filters r).
Qed.

(** C10.  With none of the four keys in [filters], [apply_filters] returns
    the frame as it is; rows without a position stay. *)
Theorem apply_filters_no_keys {N D : Type} (df : list (Row string N D)) :
  apply_filters df (mkFilters None None None None) = df
  /\ (forall r, In r df -> position r = None ->
        In r (apply_filters df (mkFilters None None None None))).
Proof. split; [reflexivity | intros r I _; exact I]. Qed.

Lemma apply_filters_no_keys_witness :
  In (mk_entry 2 "B" "Y" None 0)
     (apply_filters two_races (mkFilters None None None None)).
Proof.
  exact (proj2 (apply_filters_no_keys two_races) (mk_entry 2 "B" "Y" None 0)
               (or_intror (or_introl eq_refl)) eq_refl).
Defined.

(** ** Narrowing the criteria *)

Lemma fle_trans (a b c : pyfloat) :
  fle a b = true -> fle b c = true -> fle a c = true.
Proof.
  destruct a as [p|[|]|], b as [q|[|]|], c as [r|[|]|]; simpl;
    try discriminate; try reflexivity.
  rewrite !Qle_bool_iff. apply Qle_trans.
Qed.

Lemma between_wider (x lo hi lo' hi' : pyfloat) :
  fle lo lo' = true -> fle hi' hi = true ->
  between x lo' hi' = true -> between x lo hi = true.
Proof.
  unfold between. rewrite !andb_true_iff. intros L H [A B]. split.
  - exact (fle_trans _ _ _ L A).
  - exact (fle_trans _ _ _ B H).
Qed.

Lemma range_wider {A : Type} (cell : A -> pyfloat) (ok : A -> bool)
    (narrow wide : option (pyfloat * pyfloat)) (r : A) :
  narrows_range narrow wide = true ->
  match narrow with
  | Some (lo, hi) => ok r && between (cell r) lo hi
  | None => true
  end = true ->
  match wide with
  | Some (lo, hi) => ok r && between (cell r) lo hi
  | None => true
  end = true.
Proof.
  destruct wide as [[lo hi]|]; [|reflexivity].
  destruct narrow as [[lo' hi']|]; simpl; [|discriminate].
  rewrite !andb_true_iff. intros [L H] [O B]. split; [exact O|].
  exact (between_wider _ _ _ _ _ L H B).
Qed.

Lemma selection_wider (narrow wide : option (list string)) (x : string) :
  narrows_selection narrow wide = true ->
  match narrow with
  | Some (y :: s) => isin x (y :: s)
  | _ => true
  end = true ->
  match wide with
  | Some (y :: s) => isin x (y :: s)
  | _ => true
  end = true.
Proof.
  unfold narrows_selection.
  destruct wide as [[|y s]|]; try reflexivity.
  destruct narrow as [[|y' s']|]; cbn [restricts negb orb andb]; try discriminate.
  intros S I. unfold subset in S. rewrite forallb_forall in S.
  apply S. unfold isin in I. apply existsb_exists in I.
  destruct I as [z [I E]]. apply String.eqb_eq in E. now subst.
Qed.

(** C9, amended.  For criteria that differ in one dimension only, the
    narrower criteria never give more rows: a range that lies within the
    other one, or a selection that restricts and lies within the other one.
    A selection that is absent or empty restricts nothing, so it counts as
    the widest one. *)
Theorem apply_filters_monotone {N D : Type} (df : list (Row string N D))
    (pr : option (pyfloat * pyfloat)) (sr : option (list string))
    (por : option (pyfloat * pyfloat)) (sc : option (list string)) :
  (forall pr', narrows_range pr' pr = true ->
     (List.length (apply_filters df (mkFilters pr' sr por sc))
      <= List.length (apply_filters df (mkFilters pr sr por sc)))%nat)
  /\ (forall sr', narrows_selection sr' sr = true ->
     (List.length (apply_filters df (mkFilters pr sr' por sc))
      <= List.length (apply_filters df (mkFilters pr sr por sc)))%nat)
  /\ (forall por', narrows_range por' por = true ->
     (List.length (apply_filters df (mkFilters pr sr por' sc))
      <= List.length (apply_filters df (mkFilters pr sr por sc)))%nat)
  /\ (forall sc', narrows_selection sc' sc = true ->
     (List.length (apply_filters df (mkFilters pr sr por sc'))
      <= List.length (apply_filters df (mkFilters pr sr por sc)))%nat).
Proof.
  repeat split; intros n H; rewrite !apply_filters_keep;
    apply filter_shorter; intros r; unfold keep; cbn [points_range
      selected_races position_range selected_constructors];
    rewrite !andb_true_iff; intros [[[K1 K2] K3] K4]; repeat split;
    try assumption.
  - pose proof (range_wider points (fun _ => true) _ _ r H) as W.
    simpl in W. now apply W.
  - exact (selection_wider _ _ _ H K2).
  - exact (range_wider (fun r => position_cell (position r))
             (fun r => notna (position r)) _ _ r H K3).
  - exact (selection_wider _ _ _ H K4).
Qed.

(** Narrowing the points range from [0, 400] to [0, 10]. *)
Lemma apply_filters_monotone_witness :
  (List.length (apply_filters two_races
                  (mkFilters (Some (Finite 0, Finite 10)) None None None))
   <= List.length (apply_filters two_races
                     (mkFilters (Some (Finite 0, Finite 400)) None None None)))%nat.
Proof.
  exact (proj1 (apply_filters_monotone two_races
                  (Some (Finite 0, Finite 400)) None None None)
               (Some (Finite 0, Finite 10)) eq_refl).
Defined.

(** C9 as stated fails for selections: the empty list is a subset of
    [["A"]], yet it selects every race, and gives more rows. *)
Lemma empty_selection_gives_more :
  subset [] ["A"] = true
  /\ ~ (List.length (apply_filters two_races (mkFilters None (Some []) None None))
        <= List.length (apply_filters two_races (mkFilters None (Some ["A"]) None None)))%nat.
Proof. split; [reflexivity | simpl; lia]. Qed.

(** ** Positions and points *)

Lemma parse_position_text (m : list (string * value)) (s : string) :
  lookup "position" m = Some (VStr s) ->
  parse_position (VDict m)
  = if isdigit s
    then match int_of_string s with
         | Some z => OK (Some z)
         | None => Raise ValueError
         end
    else OK None.
Proof.
  intros E. unfold parse_position. simpl. rewrite E. simpl.
  destruct (isdigit s); [|reflexivity].
  now destruct (int_of_string s).
Qed.

(** The positions of the specification's example. *)
Lemma parse_position_examples :
  map (fun s => parse_position (VDict [("position", VStr s)]))
      ["1"; "2"; "DNF"; "DSQ"; "11"]
  = [OK (Some 1); OK (Some 2); OK None; OK None; OK (Some 11)].
Proof. reflexivity. Qed.

(** C5.  A position text that [isdigit] accepts and [int] rejects: for the
    superscript two the row is not built, [int] raises [ValueError]; the
    position is not left absent. *)
Theorem superscript_position_raises :
  isdigit superscript_two = true
  /\ forallb is_decimal (list_ascii_of_string superscript_two) = false
  /\ parse_position result_superscript = Raise ValueError
  /\ (forall (timestamp : Type) (to_datetime : list value -> exc (list timestamp))
             (year total : string) (rest : list value),
        result (get_season_results timestamp to_datetime year
                  (mk_page total [mk_race "Bahrain Grand Prix" "1" "2023-03-05"
                                     [result_superscript]] :: rest))
        = Raised ValueError).
Proof. repeat split. Qed.

(** For points that are text, absent or null: the points of a row are the
    number the text denotes, and 0 when the text denotes none or the key is
    absent.  The raw values of the specification's example give 25, 0, 0
    and 18.5. *)
Theorem parse_points_total (m : list (string * value)) :
  (forall s, lookup "points" m = Some (VStr s) ->
     parse_points (VDict m)
     = OK (match float_of_string s with Some x => x | None => Finite 0 end))
  /\ (lookup "points" m = None -> parse_points (VDict m) = OK (Finite 0))
  /\ (lookup "points" m = Some VNone -> parse_points (VDict m) = OK (Finite 0))
  /\ map (fun s => parse_points (VDict [("points", VStr s)]))
         ["25"; ""; "abc"; "18.5"]
     = [OK (Finite 25); OK (Finite 0); OK (Finite 0); OK (Finite (37 # 2))].
Proof.
  repeat split.
  - intros s E. unfold parse_points. simpl. rewrite E. simpl.
    now destruct (float_of_string s).
  - intros E. unfold parse_points. simpl. now rewrite E.
  - intros E. unfold parse_points. simpl. now rewrite E.
Qed.

Lemma parse_points_total_witness :
  parse_points (VDict [("position", VStr "3"); ("points", VStr "18.5")])
  = OK (Finite (37 # 2)).
Proof.
  exact (proj1 (parse_points_total [("position", VStr "3"); ("points", VStr "18.5")])
               "18.5" eq_refl).
Defined.

(** ** Responses that lack a field *)

(** C1.  A response whose race table lacks ['Races'] passes the test of
    line 65 and makes line 68 raise [KeyError]: the builder does not
    return. *)
Theorem missing_races_raises (timestamp : Type)
    (to_datetime : list value -> exc (list timestamp))
    (year : string) (rest : list value) :
  fetch_failed page_without_races = OK false
  /\ result (get_season_results timestamp to_datetime year
               (page_without_races :: rest))
     = Raised (KeyError "Races").
Proof. split; reflexivity. Qed.

(** ** The order of the returned frame *)

Section Sorting.

Context {V N D : Type}.
Implicit Types (r : Row V N D) (l : list (Row V N D)).

Lemma key_le_before r1 r2 : key_le r1 r2 = true <-> row_before r1 r2.
Proof.
  unfold key_le, row_before, position_le.
  rewrite orb_true_iff, andb_true_iff, Z.ltb_lt, Z.eqb_eq.
  destruct (position r1) as [a|], (position r2) as [b|];
    rewrite ?Z.leb_le; intuition (discriminate || auto).
Qed.

Lemma row_before_total r1 r2 : row_before r1 r2 \/ row_before r2 r1.
Proof.
  unfold row_before.
  destruct (position r1) as [a|], (position r2) as [b|];
    destruct (Z.lt_trichotomy (round r1) (round r2)) as [L|[E|G]];
    try (left; left; assumption); try (right; left; assumption).
  - destruct (Z.le_ge_cases a b); [left | right]; right; split; auto.
  - left. right. split; auto.
  - right. right. split; auto.
  - left. right. split; auto.
Qed.

Lemma row_before_trans r1 r2 r3 :
  row_before r1 r2 -> row_before r2 r3 -> row_before r1 r3.
Proof.
  unfold row_before.
  destruct (position r1) as [a|], (position r2) as [b|], (position r3) as [c|];
    intros [L1|[E1 P1]] [L2|[E2 P2]];
    try (left; lia); try contradiction; right; split; try lia; auto.
Qed.

Lemma insert_row_perm r l : Permutation (r :: l) (insert_row r l).
Proof.
  induction l as [|r' l IH]; simpl; [reflexivity|].
  destruct (key_le r r'); [reflexivity|].
  rewrite perm_swap. now apply perm_skip.
Qed.

Lemma sort_values_perm l : Permutation l (sort_values l).
Proof.
  induction l as [|r l IH]; simpl; [reflexivity|].
  rewrite <- insert_row_perm. now apply perm_skip.
Qed.

Lemma insert_row_sorted r l :
  StronglySorted row_before l -> StronglySorted row_before (insert_row r l).
Proof.
  induction 1 as [|r' l S IH F]; simpl.
  - repeat constructor.
  - destruct (key_le r r') eqn:K.
    + apply key_le_before in K. constructor.
      * now constructor.
      * constructor; [exact K|].
        eapply Forall_impl; [|exact F]. intros x. now apply row_before_trans.
    + assert (B : row_before r' r).
      { destruct (row_before_total r r') as [B|B]; [|exact B].
        apply key_le_before in B. congruence. }
      constructor; [exact IH|].
      apply (Permutation_Forall (insert_row_perm r l)).
      now constructor.
Qed.

Lemma sort_values_sorted l : StronglySorted row_before (sort_values l).
Proof.
  induction l as [|r l IH]; simpl; [constructor | now apply insert_row_sorted].
Qed.

End Sorting.

Lemma undated_with_dates {V N D E : Type} (rows : list (Row V N D)) (ds : list E) :
  List.length ds = List.length rows ->
  map undated (with_dates rows ds) = map undated rows.
Proof.
  unfold with_dates. revert ds.
  induction rows as [|r rows IH]; intros [|d ds] L; simpl in *;
    try discriminate; [reflexivity|].
  f_equal. apply IH. now injection L.
Qed.

Lemma sort_values_undated {V N D : Type} (l : list (Row V N D)) :
  Permutation (map undated (sort_values l)) (map undated l).
Proof. apply Permutation_map. symmetry. apply sort_values_perm. Qed.

Section SeasonFacts.

Variable timestamp : Type.
Variable to_datetime : list value -> exc (list timestamp).

Lemma finish_sorted (rows : list raw_row) (df : frame timestamp) :
  finish timestamp to_datetime rows = OK df -> StronglySorted row_before df.
Proof.
  unfold finish. destruct rows as [|r rows].
  - intros E. injection E as <-. constructor.
  - destruct (to_datetime _) as [ds|e]; simpl; [|discriminate].
    intros E. injection E as <-. apply sort_values_sorted.
Qed.

Lemma result_returned (year : string) (script : list value) (df : frame timestamp) :
  result (get_season_results timestamp to_datetime year script) = Returned df ->
  exists rows log,
    fetch_loop year script 0 [] [] = (Returned rows, log)
    /\ finish timestamp to_datetime rows = OK df.
Proof.
  unfold get_season_results.
  destruct (fetch_loop year script 0 [] []) as [[rows|e|] log]; simpl;
    try discriminate.
  destruct (finish timestamp to_datetime rows) as [df'|e] eqn:F; simpl;
    [|discriminate].
  intros E. injection E as <-. now exists rows, log.
Qed.

(** C7.  The frame that [get_season_results] returns is in ascending
    order of round and, within a round, of position, the rows without a
    position after those with one.  For a list of accumulated rows that is
    not empty and whose dates convert, this frame exists and holds the
    accumulated rows. *)
Theorem season_results_sorted :
  (forall year script df,
     result (get_season_results timestamp to_datetime year script) = Returned df ->
     StronglySorted row_before df)
  /\ (forall rows ds,
       rows <> [] ->
       to_datetime (map date rows) = OK ds ->
       List.length ds = List.length rows ->
       exists df,
         finish timestamp to_datetime rows = OK df
         /\ df <> []
         /\ StronglySorted row_before df
         /\ Permutation (map undated df) (map undated rows)).
Proof.
  split.
  - intros year script df R.
    destruct (result_returned _ _ _ R) as [rows [log [_ F]]].
    exact (finish_sorted _ _ F).
  - intros rows ds NE T L.
    exists (sort_values (with_dates rows ds)).
    assert (P : Permutation (map undated (sort_values (with_dates rows ds)))
                            (map undated rows)).
    { rewrite sort_values_undated. now rewrite undated_with_dates. }
    repeat split.
    + unfold finish. destruct rows as [|r rows]; [now destruct NE|].
      now rewrite T.
    + intros E. rewrite E in P. simpl in P.
      apply Permutation_nil in P. destruct rows; [now destruct NE | discriminate].
    + apply sort_values_sorted.
    + exact P.
Qed.

End SeasonFacts.

(** The frame of the two-page season is in order. *)
Lemma season_results_sorted_witness : StronglySorted row_before two_pages_frame.
Proof.
  exact (proj1 (season_results_sorted _ iso_dates)
               "2023" (two_pages ++ [VNone]) two_pages_frame eq_refl).
Defined.

(** ** Responses of the documented shape are processed without error *)

Lemma mapM_ok {A B : Type} (f : A -> exc B) (l : list A) :
  (forall x, In x l -> exists y, f x = OK y) -> exists ys, mapM f l = OK ys.
Proof.
  induction l as [|a l IH]; intros H; simpl.
  - now exists [].
  - destruct (H a (or_introl eq_refl)) as [y ->].
    destruct IH as [ys ->]; [intros x I; apply H; now right|].
    simpl. now exists (y :: ys).
Qed.

Lemma has_key_lookup (k : string) (m : list (string * value)) :
  has_key k m = true -> exists v, lookup k m = Some v.
Proof. unfold has_key. destruct (lookup k m) as [v|]; [now exists v | discriminate]. Qed.

Lemma is_ok_OK {A : Type} (c : exc A) : is_ok c = true -> exists a, c = OK a.
Proof. destruct c as [a|e]; [now exists a | discriminate]. Qed.

Lemma wf_parse_position (m : list (string * value)) :
  wf_position m = true -> exists p, parse_position (VDict m) = OK p.
Proof.
  unfold wf_position, parse_position. simpl.
  destruct (lookup "position" m) as [[| | | |s| |]|]; try discriminate; simpl.
  - destruct (isdigit s); simpl; [|now exists None].
    intros H. apply is_ok_OK in H. destruct H as [z H]. simpl in H.
    rewrite H. simpl. now exists (Some z).
  - intros _. now exists None.
Qed.

Lemma wf_parse_points (m : list (string * value)) :
  wf_points m = true -> exists x, parse_points (VDict m) = OK x.
Proof.
  unfold wf_points, parse_points. simpl.
  destruct (lookup "points" m) as [[|b|z|x|s|l|d]|]; simpl; intros H;
    try (eexists; reflexivity).
  - rewrite H. eexists; reflexivity.
  - destruct (float_of_string s); eexists; reflexivity.
Qed.

Lemma wf_result_row (round_num : Z) (race_name race_date result : value) :
  wf_result result = true ->
  exists row, result_row round_num race_name race_date result = OK row.
Proof.
  destruct result as [| | | | | |m]; try discriminate. simpl.
  rewrite !andb_true_iff. intros [[[P Q] Dr] C].
  unfold result_row.
  destruct (wf_parse_position m P) as [p ->].
  destruct (wf_parse_points m Q) as [x ->]. simpl.
  unfold wf_driver in Dr.
  destruct (lookup "Driver" m) as [[| | | | | |d]|]; try discriminate.
  apply andb_true_iff in Dr. destruct Dr as [G F].
  destruct (has_key_lookup _ _ G) as [g Eg].
  destruct (has_key_lookup _ _ F) as [f Ef].
  simpl. rewrite Eg, Ef. simpl.
  unfold wf_constructor in C.
  destruct (lookup "Constructor" m) as [[| | | | | |c]|]; try discriminate.
  destruct (has_key_lookup _ _ C) as [n En]. simpl. rewrite En. simpl.
  eexists; reflexivity.
Qed.

Lemma wf_race_rows (race : value) :
  wf_race race = true -> exists rows, race_rows race = OK rows.
Proof.
  destruct race as [| | | | | |m]; try discriminate. unfold wf_race.
  rewrite !andb_true_iff. intros [[[Nm Rd] Dt] Rs].
  unfold race_rows. cbn [getitem].
  destruct (has_key_lookup _ _ Nm) as [name ->]. cbn [bind].
  destruct (lookup "round" m) as [r|]; [|discriminate]. cbn [bind].
  destruct (is_ok_OK _ Rd) as [z ->]. cbn [bind].
  destruct (has_key_lookup _ _ Dt) as [day ->]. cbn [bind].
  destruct (lookup "Results" m) as [[| | | | |rs|]|]; try discriminate.
  cbn [bind iterate].
  apply mapM_ok. intros x I. apply wf_result_row.
  rewrite forallb_forall in Rs. now apply Rs.
Qed.

Lemma wf_flatten (rs : list value) :
  forallb wf_race rs = true -> exists rows, flatten (VList rs) = OK rows.
Proof.
  intros W. unfold flatten. simpl.
  destruct (mapM_ok race_rows rs) as [rows ->].
  - intros x I. apply wf_race_rows. rewrite forallb_forall in W. now apply W.
  - simpl. eexists; reflexivity.
Qed.

Lemma truthy_dict (k : string) (m : list (string * value)) (v : value) :
  lookup k m = Some v -> truthy (VDict m) = true.
Proof. destruct m; [discriminate | reflexivity]. Qed.

(** One turn of the loop on a response of the documented shape. *)
Lemma wf_page_body (T : Z) (data : value) (offset : Z) :
  wf_page T data = true ->
  page_body data offset
  = OK (page_rows data, nonempty_races data && negb (offset + limit >=? T)).
Proof.
  unfold wf_page, nonempty_races, page_rows, races_of, declared_total.
  destruct data as [| | | | | |m]; try discriminate.
  destruct (lookup "MRData" m) as [[| | | | | |md]|] eqn:M; try discriminate.
  destruct (lookup "RaceTable" md) as [[| | | | | |rt]|] eqn:R; try discriminate.
  destruct (lookup "Races" rt) as [[| | | | |rs|]|] eqn:S; try discriminate.
  destruct (lookup "total" md) as [t|] eqn:Tt; try discriminate.
  destruct (py_int t) as [z|e] eqn:Pz; try discriminate.
  rewrite andb_true_iff, Z.eqb_eq. intros [W ->].
  unfold page_body, fetch_failed, page_races, page_total.
  rewrite (truthy_dict _ _ _ M). cbn [negb contains getitem].
  rewrite M. cbn [bind negb contains getitem].
  rewrite R. cbn [bind negb contains getitem].
  rewrite S, Tt. cbn [bind]. rewrite Pz.
  destruct rs as [|race rs]; [reflexivity|].
  destruct (wf_flatten _ W) as [rows F]. cbn [truthy negb].
  rewrite F. reflexivity.
Qed.

Lemma continues_body (offset : Z) (data : value) :
  continues offset data = true ->
  page_body data offset = OK (page_rows data, true).
Proof.
  unfold continues. destruct (declared_total data) as [t|]; [|discriminate].
  rewrite !andb_true_iff, Z.ltb_lt. intros [[W NE] L].
  rewrite (wf_page_body t _ _ W), NE.
  replace (offset + limit >=? t) with false; [reflexivity|].
  symmetry. rewrite Z.geb_leb. apply Z.leb_gt. exact L.
Qed.

Lemma requests_from_app (year : string) (offset : Z) (n : nat) :
  requests_from year offset (S n)
  = requests_from year offset n
    ++ [((year ++ "/results")%string, offset + limit * Z.of_nat n, limit)].
Proof.
  revert offset. induction n as [|n IH]; intros offset.
  - cbn [requests_from app].
    replace (offset + limit * Z.of_nat 0) with offset by lia. reflexivity.
  - change (requests_from year offset (S (S n)))
      with (((year ++ "/results")%string, offset, limit)
            :: requests_from year (offset + limit) (S n)).
    rewrite IH. cbn [requests_from app].
    replace (offset + limit + limit * Z.of_nat n)
      with (offset + limit * Z.of_nat (S n)) by (unfold limit; lia).
    reflexivity.
Qed.

(** The loop passes over pages that continue, and appends their rows. *)
Lemma fetch_loop_continue (year : string) (pages rest : list value) :
  forall offset acc log,
    all_continue offset pages = true ->
    fetch_loop year (pages ++ rest) offset acc log
    = fetch_loop year rest (offset + limit * Z.of_nat (List.length pages))
        (acc ++ flat_map page_rows pages)
        (log ++ requests_from year offset (List.length pages)).
Proof.
  induction pages as [|data pages IH]; intros offset acc log C.
  - cbn [app List.length flat_map requests_from]. rewrite !app_nil_r.
    replace (offset + limit * Z.of_nat 0) with offset by lia. reflexivity.
  - cbn [all_continue] in C. apply andb_true_iff in C. destruct C as [C1 C2].
    cbn [app fetch_loop]. rewrite (continues_body _ _ C1).
    rewrite (IH _ _ _ C2). cbn [flat_map List.length requests_from].
    rewrite <- !app_assoc. cbn [app].
    replace (offset + limit + limit * Z.of_nat (List.length pages))
      with (offset + limit * Z.of_nat (S (List.length pages)))
      by (unfold limit; lia).
    reflexivity.
Qed.

Lemma wf_all_continue (T : Z) (pages : list value) :
  forall offset,
    forallb (wf_page T) pages = true ->
    forallb nonempty_races pages = true ->
    offset + limit * Z.of_nat (List.length pages) < T ->
    all_continue offset pages = true.
Proof.
  induction pages as [|data pages IH]; intros offset W NE L; [reflexivity|].
  cbn [forallb] in W, NE. apply andb_true_iff in W, NE.
  destruct W as [W1 W2], NE as [N1 N2].
  cbn [all_continue List.length] in *. unfold limit in *.
  apply andb_true_iff. split.
  - unfold continues.
    assert (E : declared_total data = Some T).
    { unfold wf_page in W1. destruct (races_of data); [|discriminate].
      destruct (declared_total data) as [t|]; [|discriminate].
      apply andb_true_iff in W1. destruct W1 as [_ E].
      apply Z.eqb_eq in E. now subst. }
    rewrite E, W1, N1. simpl. apply Z.ltb_lt. unfold limit. lia.
  - apply IH; try assumption. lia.
Qed.

(** ** Pagination *)

(** What line 65 takes for a failed fetch: no response, a response without
    ['MRData'], or one whose ['MRData'] has no ['RaceTable']. *)
Lemma fetch_failed_cases :
  fetch_failed VNone = OK true
  /\ (forall m, lookup "MRData" m = None -> fetch_failed (VDict m) = OK true)
  /\ (forall m md, lookup "MRData" m = Some (VDict md) ->
        lookup "RaceTable" md = None -> fetch_failed (VDict m) = OK true).
Proof.
  repeat split.
  - intros m M. unfold fetch_failed.
    destruct (truthy (VDict m)); [|reflexivity].
    cbn [negb contains]. now rewrite M.
  - intros m md M R. unfold fetch_failed.
    rewrite (truthy_dict _ _ _ M). cbn [negb contains getitem].
    rewrite M. cbn [bind negb contains]. now rewrite R.
Qed.

Lemma fetch_loop_failed (year : string) (pages : list value) (failed : value)
    (rest : list value) :
  all_continue 0 pages = true ->
  fetch_failed failed = OK true ->
  fetch_loop year (pages ++ failed :: rest) 0 [] []
  = (Returned (flat_map page_rows pages),
     first_requests year (S (List.length pages))).
Proof.
  intros C F. rewrite (fetch_loop_continue _ _ _ _ _ _ C).
  cbn [fetch_loop]. unfold page_body. rewrite F. cbn [bind app].
  rewrite app_nil_r. unfold first_requests. now rewrite requests_from_app.
Qed.

Lemma fetch_loop_total (year : string) (T : Z) (pages rest : list value) :
  0 <= T ->
  Z.of_nat (List.length pages) = Z.max 1 (ceil_div T limit) ->
  forallb (wf_page T) pages = true ->
  forallb nonempty_races (removelast pages) = true ->
  fetch_loop year (pages ++ rest) 0 [] []
  = (Returned (flat_map page_rows pages),
     first_requests year (List.length pages)).
Proof.
  intros T0 L W NE.
  assert (P : pages <> []) by (intros ->; simpl in L; lia).
  destruct (exists_last P) as [init [last E]]. subst pages.
  rewrite removelast_last in NE.
  rewrite forallb_app in W. apply andb_true_iff in W. destruct W as [W1 W2].
  cbn [forallb] in W2. rewrite andb_true_r in W2.
  rewrite length_app in *. cbn [List.length] in *.
  assert (B : Z.of_nat (List.length init) * 100 < T \/ init = []).
  { destruct init as [|d init]; [now right | left].
    cbn [List.length] in *. unfold ceil_div, limit in L.
    Z.div_mod_to_equations. lia. }
  assert (U : T <= (Z.of_nat (List.length init) + 1) * 100).
  { unfold ceil_div, limit in L. Z.div_mod_to_equations. lia. }
  assert (C : all_continue 0 init = true).
  { destruct B as [B| ->]; [|reflexivity].
    apply (wf_all_continue T); try assumption. unfold limit. lia. }
  rewrite <- app_assoc. cbn [app].
  rewrite (fetch_loop_continue _ _ _ _ _ _ C).
  cbn [fetch_loop]. rewrite (wf_page_body T _ _ W2).
  replace (0 + limit * Z.of_nat (List.length init) + limit >=? T) with true.
  - rewrite andb_false_r. cbn [app].
    rewrite flat_map_app. cbn [flat_map]. rewrite app_nil_r.
    unfold first_requests.
    replace (List.length init + 1)%nat with (S (List.length init)) by lia.
    now rewrite requests_from_app.
  - symmetry. rewrite Z.geb_leb. apply Z.leb_le. unfold limit. lia.
Qed.

Section Pagination.

Variable timestamp : Type.
Variable to_datetime : list value -> exc (list timestamp).

Lemma finish_rows (rows : list raw_row) (ds : list timestamp) :
  (rows <> [] ->
   to_datetime (map date rows) = OK ds /\ List.length ds = List.length rows) ->
  let df := match rows with
            | [] => []
            | _ => sort_values (with_dates rows ds)
            end in
  finish timestamp to_datetime rows = OK df
  /\ Permutation (map undated df) (map undated rows).
Proof.
  intros H. destruct rows as [|r rows]; [split; reflexivity|].
  destruct H as [T L]; [discriminate|].
  cbv zeta. split.
  - unfold finish. now rewrite T.
  - rewrite sort_values_undated. now rewrite undated_with_dates.
Qed.

(** When the first [k] pages are fetched and processed and the fetch of
    page [k + 1] fails in the sense of line 65, [get_season_results]
    returns the rows of these [k] pages, in the order of the returned frame
    and with their dates converted. *)
Theorem partial_failure (year : string) (pages : list value) (failed : value)
    (rest : list value) (ds : list timestamp) :
  all_continue 0 pages = true ->
  fetch_failed failed = OK true ->
  (flat_map page_rows pages <> [] ->
   to_datetime (map date (flat_map page_rows pages)) = OK ds
   /\ List.length ds = List.length (flat_map page_rows pages)) ->
  exists df,
    result (get_season_results timestamp to_datetime year
              (pages ++ failed :: rest)) = Returned df
    /\ requests (get_season_results timestamp to_datetime year
                   (pages ++ failed :: rest))
       = first_requests year (S (List.length pages))
    /\ df = match flat_map page_rows pages with
            | [] => []
            | rows => sort_values (with_dates rows ds)
            end
    /\ Permutation (map undated df) (map undated (flat_map page_rows pages))
    /\ (flat_map page_rows pages <> [] -> df <> []).
Proof.
  intros C F H.
  destruct (finish_rows _ _ H) as [Fin P].
  eexists. unfold get_season_results.
  rewrite (fetch_loop_failed _ _ _ _ C F), Fin. cbn [result requests].
  repeat split.
  - destruct (flat_map page_rows pages); reflexivity.
  - exact P.
  - intros NE E. rewrite E in P. apply Permutation_nil in P.
    destruct (flat_map page_rows pages); [now destruct NE | discriminate].
Qed.

(** C3, amended.  For a season whose responses all declare the total
    [T >= 0], have the documented shape and, but for the last one, list a
    race, the loop ends by itself after exactly [max 1 (ceil (T / 100))]
    requests, at the offsets 0, 100, 200, ... *)
Theorem fetch_count (year : string) (T : Z) (pages rest : list value) :
  0 <= T ->
  Z.of_nat (List.length pages) = Z.max 1 (ceil_div T limit) ->
  forallb (wf_page T) pages = true ->
  forallb nonempty_races (removelast pages) = true ->
  requests (get_season_results timestamp to_datetime year (pages ++ rest))
  = first_requests year (List.length pages)
  /\ result (get_season_results timestamp to_datetime year (pages ++ rest))
     <> Starved
  /\ fst (fetch_loop year (pages ++ rest) 0 [] [])
     = Returned (flat_map page_rows pages).
Proof.
  intros T0 L W NE. unfold get_season_results.
  rewrite (fetch_loop_total year T pages rest T0 L W NE).
  destruct (finish timestamp to_datetime (flat_map page_rows pages));
    cbn [result requests fst]; repeat split; discriminate.
Qed.

End Pagination.

(** The third request of a season fails: the rows of pages one and two are
    returned. *)
Lemma partial_failure_witness :
  exists df,
    result (get_season_results _ iso_dates "2023" (two_pages ++ VNone :: []))
    = Returned df
    /\ requests (get_season_results _ iso_dates "2023" (two_pages ++ VNone :: []))
       = first_requests "2023" 3
    /\ df = two_pages_frame
    /\ Permutation (map undated df) (map undated two_pages_rows)
    /\ (two_pages_rows <> [] -> df <> []).
Proof.
  exact (partial_failure _ iso_dates "2023" two_pages VNone [] two_pages_dates
           eq_refl eq_refl (fun _ => conj eq_refl eq_refl)).
Defined.

(** A season of 150 results is read in two requests. *)
Lemma fetch_count_witness :
  requests (get_season_results _ iso_dates "2023" (season_150 ++ []))
  = first_requests "2023" 2
  /\ result (get_season_results _ iso_dates "2023" (season_150 ++ [])) <> Starved
  /\ fst (fetch_loop "2023" (season_150 ++ []) 0 [] [])
     = Returned (flat_map page_rows season_150).
Proof.
  exact (fetch_count _ iso_dates "2023" 150 season_150 []
           (Zle_bool_imp_le 0 150 eq_refl) eq_refl eq_refl eq_refl).
Defined.

(** C3 as stated fails for [T = 0]: the season without results takes one
    request, not [ceil (0 / 100) = 0]. *)
Lemma no_results_one_request :
  forallb (wf_page 0) season_0 = true
  /\ forallb nonempty_races (removelast season_0) = true
  /\ result (get_season_results _ iso_dates "2023" season_0) = Returned []
  /\ Z.of_nat (List.length (requests (get_season_results _ iso_dates "2023" season_0)))
     <> ceil_div 0 limit.
Proof. repeat split. discriminate. Qed.

(** * Further properties of the code *)

(** ** The requests of one run *)

Lemma fetch_loop_requests (year : string) (script : list value) :
  forall offset acc log,
  exists n,
    snd (fetch_loop year script offset acc log)
    = log ++ requests_from year offset n
    /\ (n <= List.length script)%nat
    /\ (script <> [] -> (1 <= n)%nat)
    /\ (fst (fetch_loop year script offset acc log) = Starved ->
        n = List.length script).
Proof.
  induction script as [|data script IH]; intros offset acc log.
  - exists O. cbn [fetch_loop fst snd requests_from List.length].
    rewrite app_nil_r. repeat split; try lia. now intros H.
  - cbn [fetch_loop].
    destruct (page_body data offset) as [[rows [|]]|e].
    + destruct (IH (offset + limit) (acc ++ rows)
                  (log ++ [((year ++ "/results")%string, offset, limit)]))
        as [n [E [L [_ Sd]]]].
      exists (S n). rewrite E, <- app_assoc. cbn [app requests_from List.length].
      repeat split; try lia. intros St. now rewrite (Sd St).
    + exists 1%nat. cbn [fst snd requests_from List.length].
      repeat split; try lia. discriminate.
    + exists 1%nat. cbn [fst snd requests_from List.length].
      repeat split; try lia. discriminate.
Qed.

Lemma requests_fetch_loop (timestamp : Type)
    (to_datetime : list value -> exc (list timestamp))
    (year : string) (script : list value) :
  requests (get_season_results timestamp to_datetime year script)
  = snd (fetch_loop year script 0 [] [])
  /\ (result (get_season_results timestamp to_datetime year script) = Starved
      <-> fst (fetch_loop year script 0 [] []) = Starved).
Proof.
  unfold get_season_results.
  destruct (fetch_loop year script 0 [] []) as [[rows|e|] log];
    cbn [fst snd]; try (split; [reflexivity | split; intros; discriminate || reflexivity]).
  destruct (finish timestamp to_datetime rows);
    (split; [reflexivity | split; intros; discriminate]).
Qed.

(** X1.  Whatever the responses are, one run asks for the pages in order, at the
    offsets 0, 100, 200, ..., one request per response read, and at least
    one.  It stops short of a response only by returning or raising. *)
Theorem requests_in_order (timestamp : Type)
    (to_datetime : list value -> exc (list timestamp))
    (year : string) (script : list value) :
  exists n,
    requests (get_season_results timestamp to_datetime year script)
    = first_requests year n
    /\ (n <= List.length script)%nat
    /\ (script <> [] -> (1 <= n)%nat)
    /\ (result (get_season_results timestamp to_datetime year script) = Starved ->
        n = List.length script).
Proof.
  destruct (requests_fetch_loop timestamp to_datetime year script) as [R S].
  destruct (fetch_loop_requests year script 0 [] []) as [n [E [L [P St]]]].
  exists n. rewrite R, E. repeat split; try assumption.
  intros H. apply St. now apply S.
Qed.

Lemma requests_in_order_witness :
  exists n,
    requests (get_season_results _ iso_dates "2023" (two_pages ++ [VNone]))
    = first_requests "2023" n
    /\ (n <= 3)%nat /\ (1 <= n)%nat.
Proof.
  destruct (requests_in_order _ iso_dates "2023" (two_pages ++ [VNone]))
    as [n [E [L [P _]]]].
  exists n. repeat split; [exact E | exact L | apply P; discriminate].
Defined.

(** ** The URLs of one run *)

Lemma append_cancel (p a b : string) : (p ++ a = p ++ b)%string -> a = b.
Proof.
  induction p as [|c p IH]; simpl; intros E; [exact E|].
  injection E as E. now apply IH.
Qed.

Lemma to_int_proper (z : Z) :
  Z.to_int z <> Decimal.Pos Decimal.Nil /\ Z.to_int z <> Decimal.Neg Decimal.Nil.
Proof.
  destruct z as [|p|p]; simpl; split; try discriminate;
    intros E; injection E as E; exact (DecimalPos.Unsigned.to_uint_nonnil p E).
Qed.

Lemma str_int_inj (a b : Z) : str_int a = str_int b -> a = b.
Proof.
  unfold str_int. intros E.
  destruct (to_int_proper a) as [A1 A2], (to_int_proper b) as [B1 B2].
  pose proof (NilZero.isi _ A1 A2) as Ia.
  pose proof (NilZero.isi _ B1 B2) as Ib.
  rewrite E, Ib in Ia. injection Ia as Ia.
  rewrite <- (DecimalZ.of_to a), <- (DecimalZ.of_to b). now rewrite Ia.
Qed.

Lemma url_offset_inj (endpoint : string) (lim o1 o2 : Z) :
  url endpoint o1 lim = url endpoint o2 lim -> o1 = o2.
Proof.
  unfold url. intros E.
  repeat (apply append_cancel in E). now apply str_int_inj.
Qed.

Lemma requests_from_offsets (year : string) (n : nat) :
  forall offset r,
    In r (requests_from year offset n) ->
    exists o, r = ((year ++ "/results")%string, o, limit) /\ offset <= o.
Proof.
  induction n as [|n IH]; intros offset r I; [destruct I|].
  cbn [requests_from] in I. destruct I as [<-|I].
  - exists offset. split; [reflexivity | lia].
  - destruct (IH _ _ I) as [o [E L]]. exists o. split; [exact E|].
    unfold limit in L. lia.
Qed.

Lemma requests_from_urls (year : string) (n : nat) :
  forall offset, NoDup (map request_url (requests_from year offset n)).
Proof.
  induction n as [|n IH]; intros offset; cbn [requests_from map].
  - constructor.
  - constructor; [|apply IH].
    intros I. apply in_map_iff in I. destruct I as [r [E I]].
    destruct (requests_from_offsets _ _ _ _ I) as [o [-> L]].
    cbn [request_url] in E. apply url_offset_inj in E.
    unfold limit in L. lia.
Qed.

(** X2.  One run never asks for the same URL twice: the URLs of its requests
    differ in their offset. *)
Theorem urls_distinct (timestamp : Type)
    (to_datetime : list value -> exc (list timestamp))
    (year : string) (script : list value) :
  NoDup (map request_url
           (requests (get_season_results timestamp to_datetime year script))).
Proof.
  destruct (requests_fetch_loop timestamp to_datetime year script) as [R _].
  destruct (fetch_loop_requests year script 0 [] []) as [n [E _]].
  rewrite R, E. cbn [app]. apply requests_from_urls.
Qed.

(** X3.  Two requests of an endpoint with one page size have the same URL only
    at the same offset. *)
Theorem url_injective (endpoint : string) (lim o1 o2 : Z) :
  url endpoint o1 lim = url endpoint o2 lim <-> o1 = o2.
Proof. split; [apply url_offset_inj | now intros ->]. Qed.

(** ** The rows of a race *)

Lemma bind_OK {A B : Type} (c : exc A) (k : A -> exc B) (b : B) :
  bind c k = OK b -> exists a, c = OK a /\ k a = OK b.
Proof. destruct c as [a|e]; simpl; [now exists a | discriminate]. Qed.

Lemma mapM_Forall2 {A B : Type} (f : A -> exc B) (l : list A) :
  forall ys, mapM f l = OK ys -> Forall2 (fun x y => f x = OK y) l ys.
Proof.
  induction l as [|a l IH]; intros ys E; simpl in E.
  - injection E as <-. constructor.
  - apply bind_OK in E. destruct E as [b [Fa E]].
    apply bind_OK in E. destruct E as [bs [Fl E]].
    injection E as <-. constructor; [exact Fa | now apply IH].
Qed.

Lemma result_row_fields (round_num : Z) (race_name race_date result : value)
    (row : raw_row) :
  result_row round_num race_name race_date result = OK row ->
  round row = round_num /\ race row = race_name /\ date row = race_date
  /\ parse_position result = OK (position row)
  /\ parse_points result = OK (points row).
Proof.
  unfold result_row. intros E.
  apply bind_OK in E. destruct E as [p [Pp E]].
  apply bind_OK in E. destruct E as [x [Px E]].
  repeat (apply bind_OK in E; destruct E as [? [_ E]]).
  injection E as <-. cbn [round race date position points]. now repeat split.
Qed.

(** X4.  When the rows of a race are built, there is one row for each of its
    results, in their order, and every row carries the name, the round and
    the date of the race. *)
Theorem race_rows_carry (entry : value) (rows : list raw_row) :
  race_rows entry = OK rows ->
  exists race_name r round_num race_date results items,
    getitem entry "raceName" = OK race_name
    /\ getitem entry "round" = OK r /\ py_int r = OK round_num
    /\ getitem entry "date" = OK race_date
    /\ getitem entry "Results" = OK results /\ iterate results = OK items
    /\ Forall2 (fun result row =>
                  result_row round_num race_name race_date result = OK row
                  /\ race row = race_name /\ round row = round_num
                  /\ date row = race_date)
               items rows.
Proof.
  unfold race_rows. intros E.
  apply bind_OK in E. destruct E as [race_name [E1 E]].
  apply bind_OK in E. destruct E as [r [E2 E]].
  apply bind_OK in E. destruct E as [round_num [E3 E]].
  apply bind_OK in E. destruct E as [race_date [E4 E]].
  apply bind_OK in E. destruct E as [results [E5 E]].
  apply bind_OK in E. destruct E as [items [E6 E]].
  exists race_name, r, round_num, race_date, results, items.
  repeat (split; [assumption|]).
  apply mapM_Forall2 in E.
  eapply Forall2_impl; [|exact E].
  intros result row R. destruct (result_row_fields _ _ _ _ _ R) as [A [B [C _]]].
  now repeat split.
Qed.

Lemma race_rows_carry_witness :
  exists rows, race_rows race_B = OK rows
               /\ Forall (fun row => round row = 2) rows.
Proof.
  destruct (race_rows race_B) as [rows|e] eqn:E; [|discriminate E].
  exists rows. split; [reflexivity|].
  destruct (race_rows_carry race_B rows E)
    as [n [r [z [d [rs [items [_ [Er [Ez [_ [_ [_ F]]]]]]]]]]]].
  injection Er as <-. injection Ez as <-.
  clear E. induction F as [|x y l l' [_ [_ [R _]]] _ IH]; constructor; assumption.
Defined.

(** ** Positions *)

Lemma digit_not_space (c : ascii) : is_digit c = true -> is_space c = false.
Proof.
  unfold is_digit, is_decimal, is_space. generalize (code c). intros n.
  repeat match goal with
         | |- context [Z.leb ?a ?b] => destruct (Z.leb_spec a b)
         | |- context [Z.eqb ?a ?b] => destruct (Z.eqb_spec a b)
         end; simpl; intros; try reflexivity; try discriminate; lia.
Qed.

Lemma digit_not_sign (c : ascii) (cs : list ascii) :
  is_digit c = true -> signed (c :: cs) = (false, c :: cs).
Proof.
  unfold is_digit, is_decimal, signed. generalize (code c). intros n.
  repeat match goal with
         | |- context [Z.leb ?a ?b] => destruct (Z.leb_spec a b)
         | |- context [Z.eqb ?a ?b] => destruct (Z.eqb_spec a b)
         end; simpl; intros; try reflexivity; try discriminate; lia.
Qed.

Lemma dropwhile_head {A : Type} (p : A -> bool) (l : list A) :
  match l with [] => True | a :: _ => p a = false end -> dropwhile p l = l.
Proof. destruct l as [|a l]; simpl; [reflexivity | now intros ->]. Qed.

Lemma strip_digits (cs : list ascii) :
  forallb is_digit cs = true -> strip cs = cs.
Proof.
  intros F. unfold strip.
  rewrite (dropwhile_head is_space cs).
  - rewrite dropwhile_head; [apply rev_involutive|].
    destruct (rev cs) as [|a l] eqn:R; [exact I|].
    apply digit_not_space. rewrite forallb_forall in F. apply F.
    apply in_rev. rewrite R. now left.
  - destruct cs as [|a l]; [exact I|].
    apply digit_not_space. simpl in F. now apply andb_true_iff in F.
Qed.

Lemma int_digits_nonneg (cs : list ascii) :
  forall acc b z, int_digits cs acc b = Some z -> 0 <= acc -> 0 <= z.
Proof.
  induction cs as [|c cs IH]; intros acc b z E A; cbn [int_digits] in E.
  - destruct b; [injection E as <-; exact A | discriminate].
  - destruct (is_decimal c) eqn:Dc.
    + apply (IH _ _ _ E). unfold is_decimal in Dc.
      apply andb_true_iff in Dc. destruct Dc as [L _].
      apply Z.leb_le in L. unfold digit_value. lia.
    + destruct (is_underscore c && b); [|discriminate].
      exact (IH _ _ _ E A).
Qed.

Lemma int_digits_decimal (cs : list ascii) :
  forall acc, forallb is_decimal cs = true ->
    int_digits cs acc true
    = Some (fold_left (fun a c => 10 * a + digit_value c) cs acc).
Proof.
  induction cs as [|c cs IH]; intros acc F; cbn [int_digits fold_left forallb] in *;
    [reflexivity|].
  apply andb_true_iff in F. destruct F as [Dc F]. rewrite Dc. now apply IH.
Qed.

Lemma decimal_digit (c : ascii) : is_decimal c = true -> is_digit c = true.
Proof. unfold is_digit. now intros ->. Qed.

Lemma int_of_decimal_text (s : string) :
  s <> "" -> forallb is_decimal (list_ascii_of_string s) = true ->
  isdigit s = true
  /\ int_of_string s = Some (digits_value (list_ascii_of_string s)).
Proof.
  intros NE F. unfold isdigit, int_of_string, digits_value.
  assert (G : forallb is_digit (list_ascii_of_string s) = true).
  { rewrite forallb_forall in *. intros c I. apply decimal_digit. now apply F. }
  rewrite (strip_digits _ G).
  destruct (list_ascii_of_string s) as [|c cs] eqn:L.
  - destruct s; [now destruct NE | discriminate L].
  - split; [exact G|].
    rewrite digit_not_sign by (simpl in G; now apply andb_true_iff in G).
    cbn [int_digits]. simpl in F. apply andb_true_iff in F.
    destruct F as [Dc F]. rewrite Dc.
    rewrite (int_digits_decimal _ _ F). reflexivity.
Qed.

(** X5.  A position written in decimal digits (at most 4300 of them, the
    interpreter's default bound on the digits of an integer text) is read as
    that number; a position that is missing, or a text that [isdigit]
    rejects, is absent. *)
Theorem position_of_decimal_text (m : list (string * value)) :
  (forall s, lookup "position" m = Some (VStr s) -> s <> "" ->
     (String.length s <= 4300)%nat ->
     forallb is_decimal (list_ascii_of_string s) = true ->
     parse_position (VDict m)
     = OK (Some (digits_value (list_ascii_of_string s))))
  /\ (forall s, lookup "position" m = Some (VStr s) -> isdigit s = false ->
        parse_position (VDict m) = OK None)
  /\ (lookup "position" m = None -> parse_position (VDict m) = OK None).
Proof.
  repeat split.
  - intros s E NE _ F. rewrite (parse_position_text m s E).
    destruct (int_of_decimal_text s NE F) as [-> ->]. reflexivity.
  - intros s E F. rewrite (parse_position_text m s E). now rewrite F.
  - intros E. unfold parse_position. simpl. now rewrite E.
Qed.

Lemma position_of_decimal_text_witness :
  parse_position (VDict [("position", VStr "07")]) = OK (Some 7).
Proof.
  exact (proj1 (position_of_decimal_text [("position", VStr "07")])
               "07" eq_refl ltac:(discriminate) ltac:(simpl; lia) eq_refl).
Defined.

Lemma parse_position_nonneg (result : value) (z : Z) :
  parse_position result = OK (Some z) -> 0 <= z.
Proof.
  unfold parse_position. intros E.
  apply bind_OK in E. destruct E as [p [_ E]].
  apply bind_OK in E. destruct E as [d [Dg E]].
  destruct p as [| | | |s| |]; try discriminate Dg.
  injection Dg as <-. destruct (isdigit s) eqn:Ds; [|discriminate].
  apply bind_OK in E. destruct E as [z' [Pz E]]. injection E as <-.
  simpl in Pz. destruct (int_of_string s) as [n|] eqn:In; [|discriminate].
  injection Pz as <-. unfold int_of_string in In. unfold isdigit in Ds.
  destruct (list_ascii_of_string s) as [|c cs]; [discriminate|].
  rewrite (strip_digits _ Ds) in In.
  rewrite digit_not_sign in In by (simpl in Ds; now apply andb_true_iff in Ds).
  destruct (int_digits (c :: cs) 0 false) as [k|] eqn:K; [|discriminate].
  injection In as <-. exact (int_digits_nonneg _ _ _ _ K (Z.le_refl 0)).
Qed.

(** ** No negative position in a returned frame *)

Lemma result_row_nonneg (round_num : Z) (race_name race_date result : value)
    (row : raw_row) :
  result_row round_num race_name race_date result = OK row -> position_nonneg row.
Proof.
  intros E z P. destruct (result_row_fields _ _ _ _ _ E) as [_ [_ [_ [Pp _]]]].
  rewrite P in Pp. exact (parse_position_nonneg _ _ Pp).
Qed.

Lemma race_rows_nonneg (entry : value) (rows : list raw_row) :
  race_rows entry = OK rows -> Forall position_nonneg rows.
Proof.
  unfold race_rows. intros E.
  repeat (apply bind_OK in E; destruct E as [? [_ E]]).
  apply mapM_Forall2 in E.
  induction E as [|result row items rows R _ IH]; constructor; [|exact IH].
  exact (result_row_nonneg _ _ _ _ _ R).
Qed.

Lemma flatten_nonneg (races : value) (rows : list raw_row) :
  flatten races = OK rows -> Forall position_nonneg rows.
Proof.
  unfold flatten. intros E.
  apply bind_OK in E. destruct E as [items [_ E]].
  apply bind_OK in E. destruct E as [rowss [M E]]. injection E as <-.
  apply mapM_Forall2 in M.
  induction M as [|entry rs items rowss R _ IH]; cbn [List.concat]; [constructor|].
  apply Forall_app. split; [exact (race_rows_nonneg _ _ R) | exact IH].
Qed.

Lemma page_body_nonneg (data : value) (offset : Z) (rows : list raw_row) (more : bool) :
  page_body data offset = OK (rows, more) -> Forall position_nonneg rows.
Proof.
  unfold page_body. intros E.
  apply bind_OK in E. destruct E as [stop [_ E]].
  destruct stop; [injection E as <- _; constructor|].
  apply bind_OK in E. destruct E as [races [_ E]].
  destruct (negb (truthy races)); [injection E as <- _; constructor|].
  apply bind_OK in E. destruct E as [rs [F E]].
  apply bind_OK in E. destruct E as [total [_ E]].
  injection E as <- _. exact (flatten_nonneg _ _ F).
Qed.

Lemma fetch_loop_nonneg (year : string) (script : list value) :
  forall offset acc log rows,
    Forall position_nonneg acc ->
    fst (fetch_loop year script offset acc log) = Returned rows ->
    Forall position_nonneg rows.
Proof.
  induction script as [|data script IH]; intros offset acc log rows A E;
    cbn [fetch_loop] in E; [discriminate|].
  destruct (page_body data offset) as [[rs more]|e] eqn:B; [|discriminate].
  assert (A' : Forall position_nonneg (acc ++ rs)).
  { apply Forall_app. split; [exact A | exact (page_body_nonneg _ _ _ _ B)]. }
  destruct more.
  - exact (IH _ _ _ _ A' E).
  - cbn [fst] in E. injection E as <-. exact A'.
Qed.

Lemma with_dates_nonneg {V N D E : Type} (rows : list (Row V N D)) (ds : list E) :
  Forall position_nonneg rows -> Forall position_nonneg (with_dates rows ds).
Proof.
  unfold with_dates. intros F. revert ds.
  induction F as [|r rows P _ IH]; intros [|d ds]; cbn [combine map];
    constructor; [exact P | apply IH].
Qed.

(** X6.  No row of a returned frame has a negative position: a position is
    absent or at least 0. *)
Theorem positions_never_negative (timestamp : Type)
    (to_datetime : list value -> exc (list timestamp))
    (year : string) (script : list value) (df : frame timestamp) :
  result (get_season_results timestamp to_datetime year script) = Returned df ->
  Forall (fun r => forall z, position r = Some z -> 0 <= z) df.
Proof.
  intros R.
  destruct (result_returned _ _ _ _ _ R) as [rows [log [L F]]].
  assert (A : Forall position_nonneg rows).
  { apply (fetch_loop_nonneg year script 0 [] []); [constructor|].
    exact (f_equal fst L). }
  unfold finish in F. destruct rows as [|r rows].
  - injection F as <-. constructor.
  - destruct (to_datetime _) as [ds|e]; [|discriminate]. injection F as <-.
    apply (Permutation_Forall (sort_values_perm _)).
    now apply with_dates_nonneg.
Qed.

Lemma positions_never_negative_witness :
  Forall (fun r => forall z, position r = Some z -> 0 <= z) two_pages_frame.
Proof.
  exact (positions_never_negative _ iso_dates "2023" (two_pages ++ [VNone])
           two_pages_frame eq_refl).
Defined.

(** ** The one error that leaves the points *)

Lemma in_float_range_abs (z : Z) :
  in_float_range (inject_Z z) = false <-> float_limit <= Z.abs z.
Proof.
  unfold in_float_range. rewrite negb_false_iff, Qle_bool_iff.
  unfold Qle. cbn [Qabs inject_Z Qnum Qden]. lia.
Qed.

(** X7.  Reading the points of a result raises in exactly one case: the
    points are an integer of magnitude at least 2^1024 - 2^970, too large
    for a float; the error is then [OverflowError], which line 83 does not
    catch.  In every other case the points are read without error. *)
Theorem parse_points_raises (m : list (string * value)) (e : exn) :
  float_limit = 2 ^ 1024 - 2 ^ 970
  /\ (parse_points (VDict m) = Raise e
      <-> e = OverflowError
          /\ exists z, lookup "points" m = Some (VInt z) /\ float_limit <= Z.abs z).
Proof.
  split; [reflexivity|]. split.
  - unfold parse_points. cbn [get_default bind].
    destruct (lookup "points" m) as [[|b|z|x|s|l|d]|]; cbn [py_float];
      try discriminate.
    + destruct (in_float_range (inject_Z z)) eqn:R; [discriminate|].
      intros E. injection E as <-. split; [reflexivity|].
      exists z. split; [reflexivity | now apply in_float_range_abs].
    + destruct (float_of_string s); discriminate.
  - intros [-> [z [L A]]]. apply in_float_range_abs in A.
    unfold parse_points. cbn [get_default bind]. rewrite L. cbn [py_float].
    now rewrite A.
Qed.

Lemma parse_points_raises_witness :
  parse_points (VDict [("position", VStr "1"); ("points", VInt (2 ^ 1024))])
  = Raise OverflowError.
Proof.
  exact (proj2 (proj2 (parse_points_raises
                         [("position", VStr "1"); ("points", VInt (2 ^ 1024))]
                         OverflowError))
           (conj eq_refl
              (ex_intro _ (2 ^ 1024)
                 (conj eq_refl (Zle_bool_imp_le float_limit (Z.abs (2 ^ 1024)) eq_refl))))).
Defined.

(** ** Filters in sequence, filters and order *)

(** X8.  Two sets of criteria can be applied in either order. *)
Theorem apply_filters_commute {N D : Type} (df : list (Row string N D))
    (f g : Filters) :
  apply_filters (apply_filters df f) g = apply_filters (apply_filters df g) f.
Proof.
  rewrite !apply_filters_keep, !filter_twice.
  apply filter_same. intros r. apply andb_comm.
Qed.

Lemma filter_sorted {A : Type} (R : A -> A -> Prop) (p : A -> bool) (l : list A) :
  StronglySorted R l -> StronglySorted R (filter p l).
Proof.
  induction 1 as [|a l S IH F]; simpl; [constructor|].
  destruct (p a); [|exact IH].
  constructor; [exact IH|].
  rewrite Forall_forall in *. intros x I.
  apply filter_In in I. now apply F.
Qed.

(** X9.  Filtering keeps a frame in order: when the frame is in ascending order
    of round and position, so is the filtered frame. *)
Theorem apply_filters_sorted {N D : Type} (df : list (Row string N D))
    (filters : Filters) :
  StronglySorted row_before df ->
  StronglySorted row_before (apply_filters df filters).
Proof. rewrite apply_filters_keep. apply filter_sorted. Qed.

Lemma apply_filters_sorted_witness :
  StronglySorted row_before
    (apply_filters two_races (mkFilters None (Some ["B"]) None None)).
Proof.
  apply apply_filters_sorted.
  repeat constructor.
Defined.

(** ** Counts over a frame *)

Lemma unique_from_In (l : list string) :
  forall seen x,
    In x (unique_from seen l) <-> In x l /\ ~ In x seen.
Proof.
  induction l as [|y l IH]; intros seen x; cbn [unique_from].
  - simpl. tauto.
  - destruct (isin y seen) eqn:S.
    + rewrite IH. apply isin_In in S. simpl. split.
      * intros [I NS]. auto.
      * intros [[<-|I] NS]; [contradiction | auto].
    + assert (NS : ~ In y seen).
      { intros I. apply isin_In in I. congruence. }
      simpl. rewrite IH. simpl. split.
      * intros [<-|[I NI]]; [auto|]. split; [auto|]. intros J. apply NI. auto.
      * intros [[<-|I] NI]; [auto|].
        destruct (string_dec y x) as [E|NE]; [auto|]. right. split; [exact I|].
        intros [E|J]; [auto | contradiction].
Qed.

Lemma unique_from_NoDup (l : list string) :
  forall seen, NoDup (unique_from seen l).
Proof.
  induction l as [|y l IH]; intros seen; cbn [unique_from]; [constructor|].
  destruct (isin y seen); [apply IH|].
  constructor; [|apply IH].
  rewrite unique_from_In. intros [_ NI]. apply NI. now left.
Qed.

Lemma unique_In (l : list string) (x : string) : In x (unique l) <-> In x l.
Proof. unfold unique. rewrite unique_from_In. simpl. tauto. Qed.

Lemma unique_NoDup (l : list string) : NoDup (unique l).
Proof. apply unique_from_NoDup. Qed.

Lemma unique_fewer (l l' : list string) :
  incl l l' -> (List.length (unique l) <= List.length l')%nat.
Proof.
  intros I. apply NoDup_incl_length; [apply unique_NoDup|].
  intros x J. apply I. now apply unique_In.
Qed.

Lemma unique_fewer_unique (l l' : list string) :
  incl l l' -> (List.length (unique l) <= List.length (unique l'))%nat.
Proof.
  intros I. apply NoDup_incl_length; [apply unique_NoDup|].
  intros x J. apply unique_In. apply I. now apply unique_In.
Qed.

Lemma column_of_kept {N D : Type} (cell : Row string N D -> string)
    (df : list (Row string N D)) (filters : Filters) :
  incl (map cell (apply_filters df filters)) (map cell df).
Proof.
  intros x I. apply in_map_iff in I. destruct I as [r [<- I]].
  apply in_map. rewrite apply_filters_keep in I. now apply filter_In in I.
Qed.

(** X10.  The counts of the KPI cards never grow by filtering, and a selection of
    races or constructors bounds its count: after filtering with a list of
    selected races that is not empty, "Total Races" is at most the length
    of that list. *)
Theorem kpi_counts_after_filter {D : Type} (df : list (Row string string D))
    (filters : Filters) :
  (total_races (apply_filters df filters) <= total_races df)%nat
  /\ (total_drivers (apply_filters df filters) <= total_drivers df)%nat
  /\ (total_constructors (apply_filters df filters) <= total_constructors df)%nat
  /\ (forall l, selected_races filters = Some l -> l <> [] ->
        (total_races (apply_filters df filters) <= List.length l)%nat)
  /\ (forall l, selected_constructors filters = Some l -> l <> [] ->
        (total_constructors (apply_filters df filters) <= List.length l)%nat).
Proof.
  unfold total_races, total_drivers, total_constructors.
  repeat split; try (apply unique_fewer_unique; apply column_of_kept).
  - intros l E NE. apply unique_fewer. intros x I.
    apply in_map_iff in I. destruct I as [r [<- I]].
    rewrite apply_filters_keep, filter_In, keep_retained in I.
    destruct I as [_ [_ [R _]]]. exact (R l E NE).
  - intros l E NE. apply unique_fewer. intros x I.
    apply in_map_iff in I. destruct I as [r [<- I]].
    rewrite apply_filters_keep, filter_In, keep_retained in I.
    destruct I as [_ [_ [_ [_ R]]]]. exact (R l E NE).
Qed.

Lemma kpi_counts_after_filter_witness :
  (total_races (apply_filters one_driver (mkFilters None (Some ["A"; "B"]) None None))
   <= 2)%nat.
Proof.
  exact (proj1 (proj2 (proj2 (proj2
           (kpi_counts_after_filter one_driver
              (mkFilters None (Some ["A"; "B"]) None None)))))
           ["A"; "B"] eq_refl ltac:(discriminate)).
Defined.

(** X11.  For every driver the comparison table has wins <= podiums <= races, and
    no more races than the frame has rows. *)
Theorem driver_stats_ordered {D : Type} (df : list (Row string string D))
    (name : string) :
  (stat_wins df name <= stat_podiums df name)%nat
  /\ (stat_podiums df name <= stat_races df name)%nat
  /\ (stat_races df name <= List.length df)%nat.
Proof.
  unfold stat_wins, stat_podiums, stat_races, driver_df. repeat split.
  - apply filter_shorter. intros r. unfold cell_eq, cell_le.
    destruct (position r) as [z|]; [|discriminate].
    rewrite Z.eqb_eq, Z.leb_le. lia.
  - apply filter_length_le.
  - apply filter_length_le.
Qed.

Lemma between_cell (p : option Z) (a b : Z) :
  between (position_cell p) (Finite (inject_Z a)) (Finite (inject_Z b))
  = match p with
    | Some z => (a <=? z) && (z <=? b)
    | None => false
    end.
Proof.
  destruct p as [z|]; [|reflexivity].
  unfold between, position_cell, fle, Qle_bool. cbn [inject_Z Qnum Qden].
  now rewrite !Z.mul_1_r.
Qed.

Lemma count_occ_filter {A : Type} (cell : A -> string) (l : list A) (name : string) :
  count_occ string_dec (map cell l) name
  = List.length (filter (fun r => (cell r =? name)%string) l).
Proof.
  induction l as [|r l IH]; simpl; [reflexivity|].
  destruct (string_dec (cell r) name) as [E|NE].
  - rewrite (proj2 (String.eqb_eq _ _) E). simpl. now rewrite IH.
  - rewrite (proj2 (String.eqb_neq _ _) NE). exact IH.
Qed.

(** X12.  The podium chart counts the positions from 1 to 3, the comparison table
    every position up to 3: for a driver the chart never counts more, and
    the two agree when none of the driver's positions is below 1. *)
Theorem podium_counts_agree {D : Type} (df : list (Row string string D))
    (name : string) :
  (podium_counts df name <= stat_podiums df name)%nat
  /\ ((forall r z, In r df -> driver r = name -> position r = Some z -> 1 <= z) ->
      podium_counts df name = stat_podiums df name).
Proof.
  unfold podium_counts, value_counts, podium_drivers, stat_podiums, driver_df.
  rewrite count_occ_filter, !filter_twice. split.
  - apply filter_shorter. intros r. rewrite between_cell. unfold cell_le.
    rewrite !andb_true_iff. destruct (position r) as [z|]; [|intros [[=] _]].
    rewrite andb_true_iff. tauto.
  - intros H. f_equal. apply filter_ext_in. intros r I.
    rewrite between_cell. unfold cell_le.
    destruct (driver r =? name)%string eqn:E;
      [|now rewrite andb_false_r].
    apply String.eqb_eq in E. rewrite andb_true_r. cbn [andb].
    destruct (position r) as [z|] eqn:P; [|reflexivity].
    rewrite (proj2 (Z.leb_le 1 z) (H r z I E P)). reflexivity.
Qed.

Lemma podium_counts_agree_witness : podium_counts one_driver "X" = stat_podiums one_driver "X".
Proof.
  apply (proj2 (podium_counts_agree one_driver "X")).
  intros r z [<-|[<-|[<-|[<-|[]]]]] _ P; simpl in P; try discriminate P;
    injection P as <-; lia.
Defined.

(** ** Sorting text *)

Lemma compare_trans (a : string) :
  forall b c, String.compare a b <> Gt -> String.compare b c <> Gt ->
              String.compare a c <> Gt.
Proof.
  induction a as [|x a IH]; intros [|y b] [|z c]; simpl; try congruence.
  unfold Ascii.compare.
  destruct (N.compare_spec (N_of_ascii x) (N_of_ascii y)) as [E1|L1|G1];
    destruct (N.compare_spec (N_of_ascii y) (N_of_ascii z)) as [E2|L2|G2];
    destruct (N.compare_spec (N_of_ascii x) (N_of_ascii z)) as [E3|L3|G3];
    intros H1 H2; try congruence; try lia.
  now apply (IH b c).
Qed.

Lemma leb_trans (a b c : string) :
  String.leb a b = true -> String.leb b c = true -> String.leb a c = true.
Proof.
  unfold String.leb. intros H1 H2.
  pose proof (compare_trans a b c) as T.
  destruct (String.compare a b); try discriminate;
    destruct (String.compare b c); try discriminate;
    destruct (String.compare a c); try reflexivity;
    exfalso; apply T; congruence.
Qed.

Section SortBy.

Context {A : Type} (le : A -> A -> bool).
Hypothesis le_total : forall a b, le a b = true \/ le b a = true.
Hypothesis le_trans : forall a b c, le a b = true -> le b c = true -> le a c = true.

Lemma insert_by_perm (x : A) (l : list A) : Permutation (x :: l) (insert_by le x l).
Proof.
  induction l as [|y l IH]; simpl; [reflexivity|].
  destruct (le x y); [reflexivity|].
  rewrite perm_swap. now apply perm_skip.
Qed.

Lemma sort_by_perm (l : list A) : Permutation (sort_by le l) l.
Proof.
  induction l as [|x l IH]; simpl; [reflexivity|].
  rewrite <- insert_by_perm. now apply perm_skip.
Qed.

Lemma insert_by_sorted (x : A) (l : list A) :
  StronglySorted (fun a b => le a b = true) l ->
  StronglySorted (fun a b => le a b = true) (insert_by le x l).
Proof.
  induction 1 as [|y l S IH F]; simpl.
  - repeat constructor.
  - destruct (le x y) eqn:K.
    + constructor; [now constructor|].
      constructor; [exact K|].
      eapply Forall_impl; [|exact F]. intros z. now apply le_trans.
    + assert (B : le y x = true) by (destruct (le_total x y); congruence).
      constructor; [exact IH|].
      apply (Permutation_Forall (insert_by_perm x l)). now constructor.
Qed.

Lemma sort_by_sorted (l : list A) :
  StronglySorted (fun a b => le a b = true) (sort_by le l).
Proof.
  induction l as [|x l IH]; simpl; [constructor | now apply insert_by_sorted].
Qed.

End SortBy.

Lemma sorted_text_In (l : list string) (x : string) :
  In x (sorted_text l) <-> In x l.
Proof.
  unfold sorted_text. split; apply Permutation_in;
    [|symmetry]; apply sort_by_perm.
Qed.

(** ** The list of seasons *)

Lemma all_text_map (ss : list string) : all_text (map VStr ss) = Some ss.
Proof. induction ss as [|s ss IH]; simpl; [reflexivity | now rewrite IH]. Qed.

Lemma mapM_raises {A B : Type} (f : A -> exc B) (l : list A) (x : A) (e : exn) :
  In x l -> f x = Raise e -> exists e', mapM f l = Raise e'.
Proof.
  induction l as [|a l IH]; intros I R; [destruct I|].
  simpl. destruct (f a) as [b|e1] eqn:Fa; [|now exists e1].
  destruct I as [->|I]; [congruence|].
  destruct (IH I R) as [e' ->]. now exists e'.
Qed.

Section SeasonsFacts.

Variable sorted_other : list value -> exc (list value).

Lemma seasons_body_shape (m md st : list (string * value)) (seasons : value) :
  lookup "MRData" m = Some (VDict md) ->
  lookup "SeasonTable" md = Some (VDict st) ->
  seasons_body sorted_other (VDict m)
  = (seasons <- getitem (VDict st) "Seasons" ;;
     items <- iterate seasons ;;
     keys <- mapM (fun season => getitem season "season") items ;;
     sorted_reverse sorted_other keys).
Proof.
  intros M S. unfold seasons_body.
  rewrite (truthy_dict _ _ _ M). cbn [contains getitem].
  rewrite M. cbn [bind contains getitem]. rewrite S. cbn [bind]. reflexivity.
Qed.

(** X13.  For a response of the documented shape whose seasons are text,
    [get_seasons_list] returns exactly these texts, the latest first. *)
Theorem seasons_latest_first (m md st : list (string * value))
    (items : list value) (texts : list string) :
  lookup "MRData" m = Some (VDict md) ->
  lookup "SeasonTable" md = Some (VDict st) ->
  lookup "Seasons" st = Some (VList items) ->
  mapM (fun season => getitem season "season") items = OK (map VStr texts) ->
  get_seasons_list sorted_other (VDict m)
  = map VStr (sorted_text_reverse texts)
  /\ Permutation (sorted_text_reverse texts) texts
  /\ StronglySorted (fun a b => String.leb b a = true) (sorted_text_reverse texts).
Proof.
  intros M S L K. split; [|split].
  - unfold get_seasons_list. rewrite (seasons_body_shape m md st VNone M S).
    cbn [getitem]. rewrite L. cbn [bind iterate]. rewrite K. cbn [bind].
    unfold sorted_reverse. now rewrite all_text_map.
  - apply sort_by_perm.
  - apply (sort_by_sorted (fun a b => String.leb b a)).
    + intros a b. apply String.leb_total.
    + intros a b c H1 H2. exact (leb_trans _ _ _ H2 H1).
Qed.

(** X14.  When the fetch failed, or the response lacks ['MRData'],
    ['SeasonTable'] or ['Seasons'], or one of the seasons lacks
    ['season'], [get_seasons_list] returns the list [["2023"]]: it does
    not raise. *)
Theorem seasons_fallback :
  get_seasons_list sorted_other VNone = fallback_seasons
  /\ (forall m, lookup "MRData" m = None ->
        get_seasons_list sorted_other (VDict m) = fallback_seasons)
  /\ (forall m md, lookup "MRData" m = Some (VDict md) ->
        lookup "SeasonTable" md = None ->
        get_seasons_list sorted_other (VDict m) = fallback_seasons)
  /\ (forall m md st, lookup "MRData" m = Some (VDict md) ->
        lookup "SeasonTable" md = Some (VDict st) ->
        lookup "Seasons" st = None ->
        get_seasons_list sorted_other (VDict m) = fallback_seasons)
  /\ (forall m md st items item, lookup "MRData" m = Some (VDict md) ->
        lookup "SeasonTable" md = Some (VDict st) ->
        lookup "Seasons" st = Some (VList items) ->
        In (VDict item) items -> lookup "season" item = None ->
        get_seasons_list sorted_other (VDict m) = fallback_seasons).
Proof.
  split; [reflexivity|]. split; [|split; [|split]].
  - intros m M. unfold get_seasons_list, seasons_body.
    destruct (truthy (VDict m)); [|reflexivity].
    cbn [contains]. now rewrite M.
  - intros m md M S. unfold get_seasons_list, seasons_body.
    rewrite (truthy_dict _ _ _ M). cbn [contains getitem].
    rewrite M. cbn [bind contains]. now rewrite S.
  - intros m md st M S L. unfold get_seasons_list.
    rewrite (seasons_body_shape m md st VNone M S). cbn [getitem].
    now rewrite L.
  - intros m md st items item M S L I K. unfold get_seasons_list.
    rewrite (seasons_body_shape m md st VNone M S). cbn [getitem].
    rewrite L. cbn [bind iterate].
    destruct (mapM_raises (fun season => getitem season "season") items
                (VDict item) (KeyError "season") I) as [e' ->];
      [cbn [getitem]; now rewrite K | reflexivity].
Qed.

End SeasonsFacts.

Lemma seasons_latest_first_witness :
  get_seasons_list (fun _ => Raise TypeError)
    (mk_seasons [VStr "1950"; VStr "2023"; VStr "1999"])
  = [VStr "2023"; VStr "1999"; VStr "1950"].
Proof.
  pose (items := map (fun s => VDict [("season", s)])
                     [VStr "1950"; VStr "2023"; VStr "1999"]).
  pose (st := [("Seasons", VList items)]).
  pose (md := [("total", VStr "75"); ("SeasonTable", VDict st)]).
  exact (proj1 (seasons_latest_first (fun _ => Raise TypeError)
                  [("MRData", VDict md)] md st items
                  ["1950"; "2023"; "1999"] eq_refl eq_refl eq_refl eq_refl)).
Defined.

Lemma seasons_fallback_witness :
  get_seasons_list (fun _ => Raise TypeError)
    (VDict [("MRData", VDict [("SeasonTable", VDict [("season", VStr "2023")])])])
  = fallback_seasons.
Proof.
  pose (st := [("season", VStr "2023")]).
  pose (md := [("SeasonTable", VDict st)]).
  exact (proj1 (proj2 (proj2 (proj2 (seasons_fallback (fun _ => Raise TypeError)))))
           [("MRData", VDict md)] md st eq_refl eq_refl eq_refl).
Defined.

(** ** The sidebar *)

Lemma all_selected (col : list string) (x : string) :
  In x col ->
  match sorted_text (unique col) with
  | y :: l => isin x (y :: l)
  | [] => true
  end = true.
Proof.
  intros I.
  assert (J : In x (sorted_text (unique col))).
  { apply sorted_text_In. now apply unique_In. }
  destruct (sorted_text (unique col)) as [|y l]; [reflexivity|].
  now apply isin_In.
Qed.

(** X15.  Whatever the widgets return, the filters of the sidebar always hold a
    position range: every row they keep has a position, within the position
    slider, and points within the points slider.  A row without a position
    never passes them. *)
Theorem sidebar_requires_position {D : Type}
    (current_df : option (list (Row string string D))) (w : Widgets)
    (df : list (Row string string D)) (r : Row string string D) :
  In r (apply_filters df (snd (create_sidebar current_df w))) ->
  (exists z, position r = Some z
             /\ fst (position_slider w) <= z <= snd (position_slider w))
  /\ Within (points r) (Finite (inject_Z (fst (points_slider w))))
            (Finite (inject_Z (snd (points_slider w)))).
Proof.
  rewrite apply_filters_keep, filter_In, keep_retained.
  intros [_ [P [_ [R _]]]]. split.
  - destruct (R _ _ eq_refl) as [z [E W]]. exists z. split; [exact E|].
    pose proof (between_cell (Some z) (fst (position_slider w))
                  (snd (position_slider w))) as B.
    unfold Within in W. unfold between in B. cbn [position_cell] in B.
    destruct W as [W1 W2]. cbn [slider_range] in W1, W2.
    rewrite W1, W2 in B. symmetry in B.
    apply andb_true_iff in B. rewrite !Z.leb_le in B. exact B.
  - exact (P _ _ eq_refl).
Qed.

Lemma sidebar_requires_position_witness :
  (exists z, position (mk_entry 1 "A" "X" (Some 1) 25) = Some z /\ 1 <= z <= 20)
  /\ Within (Finite (inject_Z 25)) (Finite (inject_Z 0)) (Finite (inject_Z 400)).
Proof.
  exact (sidebar_requires_position None (@untouched unit (VStr "2023") None)
           two_races (mk_entry 1 "A" "X" (Some 1) 25) (or_introl eq_refl)).
Defined.

(** X16.  With the widgets untouched, and the session frame missing or the very
    frame being filtered, the sidebar's filters keep exactly the rows with
    points from 0 to 400 and a position from 1 to 20: the races and the
    constructors are all selected, the rows without a position are
    dropped. *)
Theorem sidebar_untouched {D : Type} (season : value)
    (df : list (Row string string D)) :
  let default := fun r : Row string string D =>
    between (points r) (Finite (inject_Z 0)) (Finite (inject_Z 400))
    && (notna (position r)
        && between (position_cell (position r))
                   (Finite (inject_Z 1)) (Finite (inject_Z 20))) in
  apply_filters df (snd (@create_sidebar D None (@untouched D season None)))
  = filter default df
  /\ apply_filters df (snd (create_sidebar (Some df) (untouched season (Some df))))
     = filter default df.
Proof.
  cbv zeta. split; rewrite apply_filters_keep; apply filter_ext_in; intros r I;
    unfold keep; cbn [create_sidebar untouched snd points_range selected_races
      position_range selected_constructors slider_range points_slider
      position_slider races_multiselect constructors_multiselect fst].
  - now rewrite !andb_true_r.
  - rewrite (all_selected (map race df) (race r) (in_map race df r I)).
    rewrite (all_selected (map constructor df) (constructor r)
               (in_map constructor df r I)).
    now rewrite !andb_true_r, andb_assoc.
Qed.

(** ** No bound on the pages *)

(** X17.  The loop has no bound of its own on the number of pages: as long
    as every response lists a race and declares a total beyond the offset
    reached, it asks for the next page. *)
Theorem pagination_unbounded (timestamp : Type)
    (to_datetime : list value -> exc (list timestamp))
    (year : string) (pages : list value) :
  all_continue 0 pages = true ->
  result (get_season_results timestamp to_datetime year pages) = Starved
  /\ requests (get_season_results timestamp to_datetime year pages)
     = first_requests year (List.length pages).
Proof.
  intros C. unfold get_season_results.
  pose proof (fetch_loop_continue year pages [] 0 [] [] C) as E.
  rewrite app_nil_r in E. rewrite E. cbn [fetch_loop app result requests].
  split; reflexivity.
Qed.

Lemma pagination_unbounded_witness :
  result (get_season_results _ iso_dates "2023" two_pages) = Starved
  /\ requests (get_season_results _ iso_dates "2023" two_pages)
     = first_requests "2023" 2.
Proof.
  exact (pagination_unbounded _ iso_dates "2023" two_pages eq_refl).
Defined.

Lemma url_injective_witness : 200 = 200.
Proof.
  exact (proj1 (url_injective "2023/results" 100 200 200) eq_refl).
Defined.

(** ** Failures that the builder does not absorb *)

Lemma page_without_races_body (offset : Z) :
  page_body page_without_races offset = Raise (KeyError "Races").
Proof. reflexivity. Qed.

(** C4.  A page [k + 1] that lacks the expected structure below
    ['RaceTable'] does not end the pagination with the rows of the first
    [k] pages: after [k] pages that were fetched and processed, a response
    whose race table has no ['Races'] passes the test of line 65, line 68
    raises [KeyError], and the rows of the [k] pages are lost with it. *)
Theorem missing_structure_loses_pages (timestamp : Type)
    (to_datetime : list value -> exc (list timestamp))
    (year : string) (pages rest : list value) :
  all_continue 0 pages = true ->
  fetch_failed page_without_races = OK false
  /\ result (get_season_results timestamp to_datetime year
               (pages ++ page_without_races :: rest))
     = Raised (KeyError "Races")
  /\ requests (get_season_results timestamp to_datetime year
                 (pages ++ page_without_races :: rest))
     = first_requests year (S (List.length pages)).
Proof.
  intros C. split; [reflexivity|].
  unfold get_season_results.
  rewrite (fetch_loop_continue _ _ _ _ _ _ C).
  cbn [fetch_loop]. rewrite page_without_races_body. cbn [result requests app].
  split; [reflexivity|].
  unfold first_requests. now rewrite requests_from_app.
Qed.

(** Pages one and two hold five rows; the third response has no ['Races']. *)
Lemma missing_structure_loses_pages_witness :
  fetch_failed page_without_races = OK false
  /\ result (get_season_results _ iso_dates "2023"
               (two_pages ++ page_without_races :: []))
     = Raised (KeyError "Races")
  /\ requests (get_season_results _ iso_dates "2023"
                 (two_pages ++ page_without_races :: []))
     = first_requests "2023" 3.
Proof.
  exact (missing_structure_loses_pages _ iso_dates "2023" two_pages [] eq_refl).
Defined.

(** C6.  Points that are an integer too large for a float are not turned
    into 0: [float] raises [OverflowError], line 83 catches [ValueError]
    and [TypeError] only, and the error leaves [get_season_results]. *)
Theorem huge_points_raise (timestamp : Type)
    (to_datetime : list value -> exc (list timestamp))
    (year total : string) (rest : list value) :
  parse_points result_huge_points = Raise OverflowError
  /\ result (get_season_results timestamp to_datetime year
               (mk_page total [mk_race "Bahrain Grand Prix" "1" "2023-03-05"
                                  [result_huge_points]] :: rest))
     = Raised OverflowError.
Proof. split; vm_compute; reflexivity. Qed.
